(** * Browser Inspector: the in-page selection engine and its host driver

    A shallow embedding of [src/index.ts].  The repository ships two builds of
    the server whose page-side scripts differ:

    - the _toggle-button_ engine (overlay, info panel, dialog, toggle button,
      device selector; hover, lock, second click opens the dialog);
    - the _floating-icon_ engine (floating icon, toolbar, resolution picker;
      one click selects and opens a centred dialog).

    The host-side tool handlers ([launchBrowser], [inspectElement],
    [getElementInfo], [modifyElement], [closeBrowser]) are the same in both,
    up to the script injected and the extra message read back.

    Layout: JavaScript string helpers, the DOM, the page and the handler
    monad, the two engines, event dispatch, the selector language of
    [querySelector], the host driver, and then the theorems. *)

From Stdlib Require Import Ascii.
From stdpp Require Import base option list strings gmap pretty.

Local Open Scope string_scope.
Local Open Scope list_scope.
Set Warnings "-register-all".

(** ** JavaScript string helpers *)

Module Js.

Definition lower_ascii (c : Ascii.ascii) : Ascii.ascii :=
  let n := Ascii.nat_of_ascii c in
  if (65 <=? n)%nat && (n <=? 90)%nat then Ascii.ascii_of_nat (n + 32) else c.

(** [String.prototype.toLowerCase], on the ASCII range. *)
Fixpoint toLowerCase (s : string) : string :=
  match s with
  | "" => ""
  | String c s' => String (lower_ascii c) (toLowerCase s')
  end.

Fixpoint trimStart (s : string) : string :=
  match s with
  | String c s' => if Ascii.is_space c then trimStart s' else s
  | "" => ""
  end.

(** [String.prototype.trim], white space being the ASCII white space. *)
Definition trim (s : string) : string :=
  String.rev (trimStart (String.rev (trimStart s))).

(** [Array.prototype.join]. *)
Fixpoint join (sep : string) (l : list string) : string :=
  match l with
  | [] => ""
  | [x] => x
  | x :: l' => x +:+ sep +:+ join sep l'
  end.

(** Truthiness of a string: only the empty string is falsy. *)
Definition truthy (s : string) : bool := negb (String.eqb s "").

(** [s.substring(0, n)]. *)
Definition prefix (n : nat) (s : string) : string := String.substring 0 n s.

(** [Array.prototype.indexOf] on an array of node references: the position
    of the first occurrence, [-1] when there is none. *)
Fixpoint indexOf_from (i : Z) (l : list nat) (x : nat) : Z :=
  match l with
  | [] => (-1)%Z
  | y :: l' => if (y =? x)%nat then i else indexOf_from (i + 1)%Z l' x
  end.

Definition indexOf (l : list nat) (x : nat) : Z := indexOf_from 0%Z l x.

(** The double-quote character. *)
Definition dquote : string := String (Ascii.ascii_of_nat 34) "".

Fixpoint digits (acc : option Z) (s : string) : option Z :=
  match s with
  | String c s' =>
      match Ascii.is_nat c with
      | Some d => digits (Some (10 * default 0 acc + Z.of_nat d)%Z) s'
      | None => acc
      end
  | "" => acc
  end.

(** [parseInt] in base ten: leading white space, an optional sign and the
    longest run of digits; [None] stands for [NaN]. *)
Definition parseInt (s : string) : option Z :=
  match trimStart s with
  | String "-"%char s' => Z.opp <$> digits None s'
  | String "+"%char s' => digits None s'
  | s' => digits None s'
  end.

End Js.

(** ** The document tree *)

Module Dom.

(** An element node.  [key] is the identity of the JavaScript object (two
    references are [===] exactly when their keys agree); [tagName] is kept
    upper-case, as the DOM reports it for HTML elements. *)
Inductive Element : Type :=
  Elem (key : nat) (tagName : string) (elemId : string)
       (classList : list string) (children : list Element).

Definition key (e : Element) : nat := let 'Elem k _ _ _ _ := e in k.
Definition tagName (e : Element) : string := let 'Elem _ t _ _ _ := e in t.
Definition elemId (e : Element) : string := let 'Elem _ _ i _ _ := e in i.
Definition classList (e : Element) : list string := let 'Elem _ _ _ c _ := e in c.
Definition children (e : Element) : list Element := let 'Elem _ _ _ _ ch := e in ch.

(** All elements of a subtree in document order (the root first). *)
Fixpoint elements (e : Element) : list Element :=
  match e with
  | Elem _ _ _ _ ch => e :: flat_map elements ch
  end.

Definition keys (e : Element) : list nat := key <$> elements e.

(** The element object behind a reference, when it is in the tree. *)
Definition lookup (k : nat) (doc : Element) : option Element :=
  find (fun e => (key e =? k)%nat) (elements doc).

(** [document.getElementById]: the first element in document order. *)
Definition getElementById (i : string) (doc : Element) : option nat :=
  key <$> find (fun e => String.eqb (elemId e) i) (elements doc).

(** [node.parentElement]. *)
Definition parentElement (k : nat) (doc : Element) : option Element :=
  find (fun e => existsb (fun c => (key c =? k)%nat) (children e)) (elements doc).

(** [a.contains(b)]: a node contains itself and its descendants. *)
Definition contains (doc : Element) (a b : nat) : bool :=
  (a =? b)%nat ||
  match lookup a doc with
  | Some ea => bool_decide (b ∈ keys ea)
  | None => false
  end.

(** The keys on the way from the root down to [k] ([[]] when [k] is not in
    the tree). *)
Fixpoint path_to (k : nat) (e : Element) : list nat :=
  match e with
  | Elem k' _ _ _ ch =>
      if (k' =? k)%nat then [k']
      else match flat_map (path_to k) ch with
           | [] => []
           | p => k' :: p
           end
  end.

(** The propagation path of an event: the target first, the root last. *)
Definition propagation_path (k : nat) (doc : Element) : list nat :=
  rev (path_to k doc).

(** Rewriting the child list of every node, bottom-up. *)
Fixpoint transform (f : nat -> list Element -> list Element) (e : Element) : Element :=
  match e with
  | Elem k t i c ch => Elem k t i c (f k (map (transform f) ch))
  end.

(** [parent.appendChild(n)]. *)
Definition appendChild (parent : nat) (n : Element) : Element -> Element :=
  transform (fun k ch => if (k =? parent)%nat then ch ++ [n] else ch).

(** [node.remove()] and [parent.removeChild(node)]. *)
Definition remove (k : nat) : Element -> Element :=
  transform (fun _ ch => filter (fun c => key c ≠ k) ch).

(** The effect of assigning [innerHTML]: the children are replaced. *)
Definition setChildren (parent : nat) (new : list Element) : Element -> Element :=
  transform (fun k ch => if (k =? parent)%nat then new else ch).

(** The effect of assigning [outerHTML]: the node is replaced in its parent. *)
Definition replaceWith (k : nat) (new : list Element) : Element -> Element :=
  transform (fun _ ch => flat_map (fun c => if (key c =? k)%nat then new else [c]) ch).

(** [document.querySelector('.' + c)]: the first element of class [c]. *)
Definition firstOfClass (c : string) (doc : Element) : option nat :=
  key <$> find (fun e => bool_decide (c ∈ classList e)) (elements doc).

(** Whether [k] is a child of the root, as [document.body.removeChild]
    demands. *)
Definition isChildOfRoot (k : nat) (doc : Element) : bool :=
  existsb (fun c => (key c =? k)%nat) (children doc).

(** Number of elements carrying a given [id]. *)
Definition count_id (i : string) (doc : Element) : nat :=
  length (filter (fun e => elemId e = i) (elements doc)).

(** Markup before it is turned into nodes: what the HTML parser yields. *)
Inductive Markup : Type :=
  Tag (tag : string) (mid : string) (mclasses : list string) (kids : list Markup).

(** Turning markup into nodes, giving each a fresh key. *)
Fixpoint instantiate (next : nat) (m : Markup) : Element * nat :=
  match m with
  | Tag t i c kids =>
      let '(ch, next') :=
        (fix go (n : nat) (l : list Markup) : list Element * nat :=
           match l with
           | [] => ([], n)
           | m' :: l' =>
               let '(e, n1) := instantiate n m' in
               let '(es, n2) := go n1 l' in
               (e :: es, n2)
           end) (S next) kids in
      (Elem next t i c ch, next')
  end.

Fixpoint instantiate_all (next : nat) (l : list Markup) : list Element * nat :=
  match l with
  | [] => ([], next)
  | m :: l' =>
      let '(e, n1) := instantiate next m in
      let '(es, n2) := instantiate_all n1 l' in
      (e :: es, n2)
  end.

End Dom.

(** ** The page *)

(** A bounding rectangle, in CSS pixels (taken as integers). *)
Record Rect := { top : Z; left : Z; width : Z; height : Z; right : Z }.

(** What the rendering engine computes and the repository only calls. *)
Class Renderer := {
  getBoundingClientRect : Dom.Element -> nat -> Rect;
  innerWidth : Z;
  outerHTML : Dom.Element -> nat -> string;
  textContent : Dom.Element -> nat -> string;
  getComputedStyle : Dom.Element -> nat -> list (string * string);
  parseHTML : string -> list Dom.Markup;
  stringify : list (string * string) -> string;
}.

(** The object stored in [window.selectedElement].  The toggle-button engine
    fills all five fields; the floating-icon engine omits [element] and
    [modificationRequest]. *)
Record SelectionRecord := {
  rec_element : option nat;
  rec_selector : string;
  rec_html : string;
  rec_css : list (string * string);
  rec_modificationRequest : option string;
}.

(** Callbacks handed to [setTimeout] by the floating-icon engine. *)
Inductive Timer :=
  | FocusTextarea
  | RemoveNotification (notification : nat)
  | RestoreBackground (target : nat) (color : string).

(** The state of one page: the document below [document.body] (the root of
    [doc] is the body element), the properties of its nodes kept by node key,
    and the two globals on [window] the engines write. *)
Record Page := {
  doc : Dom.Element;
  nextKey : nat;
  style : gmap (nat * string) string;
  value : gmap nat string;
  innerHTML : gmap nat string;
  window_selectedElement : option SelectionRecord;
  window_selectedElementMessage : option string;
  windowSize : option (Z * Z);
  timers : list Timer;
}.

Definition with_doc (d : Dom.Element) (p : Page) : Page :=
  {| doc := d; nextKey := nextKey p; style := style p; value := value p;
     innerHTML := innerHTML p;
     window_selectedElement := window_selectedElement p;
     window_selectedElementMessage := window_selectedElementMessage p;
     windowSize := windowSize p; timers := timers p |}.

Definition with_nextKey (n : nat) (p : Page) : Page :=
  {| doc := doc p; nextKey := n; style := style p; value := value p;
     innerHTML := innerHTML p;
     window_selectedElement := window_selectedElement p;
     window_selectedElementMessage := window_selectedElementMessage p;
     windowSize := windowSize p; timers := timers p |}.

Definition with_style (s : gmap (nat * string) string) (p : Page) : Page :=
  {| doc := doc p; nextKey := nextKey p; style := s; value := value p;
     innerHTML := innerHTML p;
     window_selectedElement := window_selectedElement p;
     window_selectedElementMessage := window_selectedElementMessage p;
     windowSize := windowSize p; timers := timers p |}.

Definition with_value (v : gmap nat string) (p : Page) : Page :=
  {| doc := doc p; nextKey := nextKey p; style := style p; value := v;
     innerHTML := innerHTML p;
     window_selectedElement := window_selectedElement p;
     window_selectedElementMessage := window_selectedElementMessage p;
     windowSize := windowSize p; timers := timers p |}.

Definition with_innerHTML (h : gmap nat string) (p : Page) : Page :=
  {| doc := doc p; nextKey := nextKey p; style := style p; value := value p;
     innerHTML := h;
     window_selectedElement := window_selectedElement p;
     window_selectedElementMessage := window_selectedElementMessage p;
     windowSize := windowSize p; timers := timers p |}.

Definition with_selectedElement (r : option SelectionRecord) (p : Page) : Page :=
  {| doc := doc p; nextKey := nextKey p; style := style p; value := value p;
     innerHTML := innerHTML p;
     window_selectedElement := r;
     window_selectedElementMessage := window_selectedElementMessage p;
     windowSize := windowSize p; timers := timers p |}.

Definition with_selectedElementMessage (m : option string) (p : Page) : Page :=
  {| doc := doc p; nextKey := nextKey p; style := style p; value := value p;
     innerHTML := innerHTML p;
     window_selectedElement := window_selectedElement p;
     window_selectedElementMessage := m;
     windowSize := windowSize p; timers := timers p |}.

Definition with_windowSize (w : option (Z * Z)) (p : Page) : Page :=
  {| doc := doc p; nextKey := nextKey p; style := style p; value := value p;
     innerHTML := innerHTML p;
     window_selectedElement := window_selectedElement p;
     window_selectedElementMessage := window_selectedElementMessage p;
     windowSize := w; timers := timers p |}.

Definition with_timers (t : list Timer) (p : Page) : Page :=
  {| doc := doc p; nextKey := nextKey p; style := style p; value := value p;
     innerHTML := innerHTML p;
     window_selectedElement := window_selectedElement p;
     window_selectedElementMessage := window_selectedElementMessage p;
     windowSize := windowSize p; timers := t |}.

(** [document.body] *)
Definition body (p : Page) : nat := Dom.key (doc p).

(** [document.createElement]: a fresh object, not yet in the document. *)
Definition createElement (p : Page) : nat * Page :=
  (nextKey p, with_nextKey (S (nextKey p)) p).

(** [el.style[prop] = v] *)
Definition set_style (k : nat) (prop v : string) (p : Page) : Page :=
  with_style (<[(k, prop) := v]> (style p)) p.

Definition set_styles (k : nat) (l : list (string * string)) (p : Page) : Page :=
  foldl (fun q pv => set_style k pv.1 pv.2 q) p l.

Arguments set_styles : simpl never.

(** The value a run of assignments leaves in a property: that of the last
    assignment to it, if any. *)
Fixpoint assigned (prop : string) (l : list (string * string)) : option string :=
  match l with
  | [] => None
  | (pr, v) :: l' =>
      match assigned prop l' with
      | Some w => Some w
      | None => if decide (pr = prop) then Some v else None
      end
  end.

(** [el.style[prop]]: the empty string when never assigned. *)
Definition get_style (k : nat) (prop : string) (p : Page) : string :=
  default "" (style p !! (k, prop)).

(** [el.value = v] and [el.value] *)
Definition set_value (k : nat) (v : string) (p : Page) : Page :=
  with_value (<[k := v]> (value p)) p.

Definition get_value (k : nat) (p : Page) : string :=
  default "" (value p !! k).

(** [el.innerHTML = html], where [html] parses to [markup].  The markup
    assigned is remembered as a string and its elements become the children
    of [el]; text interpolated into a template is taken as text. *)
Definition set_innerHTML (k : nat) (html : string) (markup : list Dom.Markup)
    (p : Page) : Page :=
  let '(ch, n) := Dom.instantiate_all (nextKey p) markup in
  with_innerHTML (<[k := html]> (innerHTML p))
    (with_nextKey n (with_doc (Dom.setChildren k ch (doc p)) p)).

(** [document.body.appendChild(el)] *)
Definition appendToBody (el : Dom.Element) (p : Page) : Page :=
  with_doc (Dom.appendChild (body p) el (doc p)) p.

(** [target.id] of a node of the document. *)
Definition id_of (k : nat) (p : Page) : string :=
  from_option Dom.elemId "" (Dom.lookup k (doc p)).

(** [n + 'px'] *)
Definition px (n : Z) : string := pretty n +:+ "px".

(** Building one node of the user interface: [createElement], the
    assignments to [id], [className] and [style], the children, and
    [document.body.appendChild].  The node takes the next free key, its
    descendants the keys after it in document order. *)
Definition addNode (m : Dom.Markup) (st : list (string * string))
    (html : option string) (p : Page) : nat * Page :=
  let '(el, n) := Dom.instantiate (nextKey p) m in
  let k := Dom.key el in
  let p1 := set_styles k st (with_nextKey n p) in
  let p2 := match html with
            | Some h => with_innerHTML (<[k := h]> (innerHTML p1)) p1
            | None => p1
            end in
  (k, appendToBody el p2).

(** [document.body.removeChild(k)]; [None] when it throws because [k] is
    not a child of the body. *)
Definition removeChildOfBody (k : nat) (p : Page) : option Page :=
  if Dom.isChildOfRoot k (doc p)
  then Some (with_doc (Dom.remove k (doc p)) p)
  else None.

(** ** Events *)

(** What happens in a page between two calls of the host: the pointer
    enters a node, a click, the user edits a form control or picks an option
    of a drop-down, and the oldest pending [setTimeout] callback runs. *)
Inductive Event :=
  | Mouseover (target : nat)
  | Click (target : nat)
  | Input (target : nat) (text : string)
  | Change (target : nat) (v : string)
  | Timeout.

(** A browser tab: the page and the closures of the scripts injected into
    it so far, oldest first.  Every injection leaves its listeners on the
    document for the life of the page. *)
Record Tab (E : Type) := MkTab { tab_page : Page; closures : list E }.
Arguments MkTab {E} _ _.
Arguments tab_page {E} _.
Arguments closures {E} _.

(** Running one listener of every closure in turn. *)
Fixpoint run_each {E : Type} (f : E -> Page -> E * Page) (es : list E) (p : Page)
    : list E * Page :=
  match es with
  | [] => ([], p)
  | e :: es' =>
      let '(e', p') := f e p in
      let '(es'', p'') := run_each f es' p' in
      (e' :: es'', p'')
  end.

(** Running several listeners of one closure in turn. *)
Definition run_all {E : Type} (hs : list (E -> Page -> E * Page)) (e : E) (p : Page)
    : E * Page :=
  foldl (fun ep h => h ep.1 ep.2) (e, p) hs.

(** The callback of a timer. *)
Definition fire (t : Timer) (p : Page) : Page :=
  match t with
  | FocusTextarea => p
  | RemoveNotification n => default p (removeChildOfBody n p)
  | RestoreBackground target color => set_style target "backgroundColor" color p
  end.

Definition on_timeout (p : Page) : Page :=
  match timers p with
  | [] => p
  | t :: ts => fire t (with_timers ts p)
  end.

(** ** The toggle-button engine *)

Module V1.

(** The nodes the script creates and keeps in [const] bindings, and the
    nodes on which it registered a listener of their own (found through
    [document.getElementById] once everything was appended). *)
Record Surfaces := {
  overlay : nat;
  infoPanel : nat;
  dialogBox : nat;
  toggleButton : nat;
  deviceSelector : nat;
  dropdownNode : option nat;
  applyNode : option nat;
  cancelNode : option nat;
  submitNode : option nat;
}.

(** One run of the script: its surfaces and its five [let] variables. *)
Record Engine := {
  ui : Surfaces;
  currentElement : option nat;
  selectedElement : option nat;
  highlightBox : option nat;
  isSelectionLocked : bool;
  isSelectionModeActive : bool;
}.

Definition set_currentElement (v : option nat) (e : Engine) : Engine :=
  {| ui := ui e; currentElement := v; selectedElement := selectedElement e;
     highlightBox := highlightBox e; isSelectionLocked := isSelectionLocked e;
     isSelectionModeActive := isSelectionModeActive e |}.

Definition set_selectedElement (v : option nat) (e : Engine) : Engine :=
  {| ui := ui e; currentElement := currentElement e; selectedElement := v;
     highlightBox := highlightBox e; isSelectionLocked := isSelectionLocked e;
     isSelectionModeActive := isSelectionModeActive e |}.

Definition set_highlightBox (v : option nat) (e : Engine) : Engine :=
  {| ui := ui e; currentElement := currentElement e;
     selectedElement := selectedElement e;
     highlightBox := v; isSelectionLocked := isSelectionLocked e;
     isSelectionModeActive := isSelectionModeActive e |}.

Definition set_isSelectionLocked (v : bool) (e : Engine) : Engine :=
  {| ui := ui e; currentElement := currentElement e;
     selectedElement := selectedElement e;
     highlightBox := highlightBox e; isSelectionLocked := v;
     isSelectionModeActive := isSelectionModeActive e |}.

Definition set_isSelectionModeActive (v : bool) (e : Engine) : Engine :=
  {| ui := ui e; currentElement := currentElement e;
     selectedElement := selectedElement e;
     highlightBox := highlightBox e; isSelectionLocked := isSelectionLocked e;
     isSelectionModeActive := v |}.

(** *** The injected nodes *)

Definition existingElements : list string :=
  [ "mcp-inspector-overlay"; "mcp-inspector-info"; "mcp-inspector-dialog";
    "mcp-inspector-highlight"; "mcp-toggle-button" ].

(** [existingElements.forEach(id => document.getElementById(id)?.remove())] *)
Definition removeExisting (p : Page) : Page :=
  foldl (fun q i =>
           match Dom.getElementById i (doc q) with
           | Some k => with_doc (Dom.remove k (doc q)) q
           | None => q
           end) p existingElements.

Definition overlay_style : list (string * string) :=
  [ ("position", "fixed"); ("top", "0"); ("left", "0"); ("width", "100%");
    ("height", "100%"); ("backgroundColor", "rgba(0, 0, 0, 0.1)");
    ("zIndex", "9999"); ("pointerEvents", "none"); ("display", "none") ].

Definition infoPanel_style : list (string * string) :=
  [ ("position", "fixed"); ("bottom", "70px"); ("left", "10px");
    ("backgroundColor", "white"); ("padding", "10px"); ("borderRadius", "5px");
    ("boxShadow", "0 0 10px rgba(0, 0, 0, 0.5)"); ("zIndex", "10000");
    ("maxWidth", "300px"); ("fontSize", "12px"); ("fontFamily", "monospace");
    ("display", "none") ].

Definition dialogBox_style : list (string * string) :=
  [ ("position", "absolute"); ("backgroundColor", "white"); ("padding", "10px");
    ("borderRadius", "5px"); ("boxShadow", "0 0 10px rgba(0, 0, 0, 0.5)");
    ("zIndex", "10002"); ("display", "none"); ("width", "300px") ].

(** The markup literal assigned to [dialogBox.innerHTML], parsed. *)
Definition dialogBox_markup : list Dom.Markup :=
  [ Dom.Tag "DIV" "" [] [];
    Dom.Tag "TEXTAREA" "mcp-modification-request" [] [];
    Dom.Tag "DIV" "" []
      [ Dom.Tag "BUTTON" "mcp-cancel-button" [] [];
        Dom.Tag "BUTTON" "mcp-submit-button" [] [] ] ].

Definition toggleButton_style : list (string * string) :=
  [ ("position", "fixed"); ("bottom", "10px"); ("left", "10px");
    ("padding", "10px 15px"); ("backgroundColor", "#007bff"); ("color", "white");
    ("border", "none"); ("borderRadius", "5px"); ("fontWeight", "bold");
    ("cursor", "pointer"); ("zIndex", "10003");
    ("boxShadow", "0 2px 5px rgba(0, 0, 0, 0.3)") ].

Definition deviceSelector_style : list (string * string) :=
  [ ("position", "fixed"); ("top", "10px"); ("right", "10px");
    ("backgroundColor", "white"); ("padding", "10px"); ("borderRadius", "5px");
    ("boxShadow", "0 2px 5px rgba(0, 0, 0, 0.3)"); ("zIndex", "10003");
    ("display", "flex"); ("flexDirection", "column"); ("gap", "5px") ].

Definition deviceSizes : list (string * Z * Z) :=
  [ ("Desktop", 1280, 800); ("iPhone SE", 375, 667); ("iPhone XR/11", 414, 896);
    ("iPhone 12/13/14", 390, 844); ("iPhone 12/13/14 Pro Max", 428, 926);
    ("iPad", 768, 1024); ("iPad Pro", 1024, 1366); ("Galaxy S20", 360, 800);
    ("Pixel 5", 393, 851) ]%Z.

(** The device selector: header, drop-down with one option per device,
    the two custom-size inputs and the apply button. *)
Definition deviceSelector_markup : Dom.Markup :=
  Dom.Tag "DIV" "mcp-device-selector" []
    [ Dom.Tag "DIV" "" [] [];
      Dom.Tag "SELECT" "mcp-device-dropdown" []
        (map (fun _ => Dom.Tag "OPTION" "" [] []) deviceSizes);
      Dom.Tag "DIV" "" []
        [ Dom.Tag "INPUT" "mcp-width-input" [] [];
          Dom.Tag "INPUT" "mcp-height-input" [] [] ];
      Dom.Tag "BUTTON" "mcp-apply-size" [] [] ].

(** The script passed to [page.evaluate] by [inspectElement], up to the
    registration of the listeners: the engine it returns is the closure the
    listeners share. *)
Definition inject (p : Page) : Engine * Page :=
  let p := removeExisting p in
  let '(ov, p) := addNode (Dom.Tag "DIV" "mcp-inspector-overlay" [] [])
                    overlay_style None p in
  let '(ip, p) := addNode (Dom.Tag "DIV" "mcp-inspector-info" [] [])
                    infoPanel_style
                    (Some "Hover over elements and click to select one") p in
  let '(dg, p) := addNode (Dom.Tag "DIV" "mcp-inspector-dialog" [] dialogBox_markup)
                    dialogBox_style None p in
  let '(tg, p) := addNode (Dom.Tag "BUTTON" "mcp-toggle-button" [] [])
                    toggleButton_style (Some "Select Element") p in
  let '(ds, p) := addNode deviceSelector_markup deviceSelector_style None p in
  ({| ui := {| overlay := ov; infoPanel := ip; dialogBox := dg;
               toggleButton := tg; deviceSelector := ds;
               dropdownNode := Dom.getElementById "mcp-device-dropdown" (doc p);
               applyNode := Dom.getElementById "mcp-apply-size" (doc p);
               cancelNode := Dom.getElementById "mcp-cancel-button" (doc p);
               submitNode := Dom.getElementById "mcp-submit-button" (doc p) |};
      currentElement := None; selectedElement := None; highlightBox := None;
      isSelectionLocked := false; isSelectionModeActive := false |}, p).

(** *** The functions of the script *)

Section Script.
Context {rd : Renderer}.

Definition highlight_style : list (string * string) :=
  [ ("position", "fixed"); ("border", "3px solid #007bff");
    ("backgroundColor", "rgba(0, 123, 255, 0.1)"); ("pointerEvents", "none");
    ("zIndex", "2147483647"); ("display", "none");
    ("boxShadow", "0 0 0 1px white") ].

Definition createHighlightBox (p : Page) : nat * Page :=
  addNode (Dom.Tag "DIV" "mcp-inspector-highlight" [] []) highlight_style None p.

Definition updateHighlightBox (element : nat) (isSelected : bool)
    (e : Engine) (p : Page) : Engine * Page :=
  let '(box, e, p) :=
    match highlightBox e with
    | Some b => (b, e, p)
    | None => let '(b, p') := createHighlightBox p in
              (b, set_highlightBox (Some b) e, p')
    end in
  let rect := getBoundingClientRect (doc p) element in
  let p := set_styles box
             [ ("top", px (top rect)); ("left", px (left rect));
               ("width", px (width rect)); ("height", px (height rect));
               ("display", "block") ] p in
  let p := if isSelected
           then set_styles box
                  [ ("border", "3px solid #28a745");
                    ("backgroundColor", "rgba(40, 167, 69, 0.1)");
                    ("boxShadow", "0 0 0 1px white") ] p
           else set_styles box
                  [ ("border", "3px solid #007bff");
                    ("backgroundColor", "rgba(0, 123, 255, 0.1)");
                    ("boxShadow", "0 0 0 1px white") ] p in
  (e, p).

Definition hideHighlightBox (e : Engine) (p : Page) : Page :=
  match highlightBox e with
  | Some b => set_style b "display" "none" p
  | None => p
  end.

(** [getSelector].  A reference to a node that is no longer in the document
    yields the empty string here. *)
Definition getSelector (d : Dom.Element) (element : nat) : string :=
  match Dom.lookup element d with
  | None => ""
  | Some el =>
      if Js.truthy (Dom.elemId el) then "#" +:+ Dom.elemId el
      else if (0 <? length (Dom.classList el))%nat
      then Js.toLowerCase (Dom.tagName el) +:+ "." +:+ Js.join "." (Dom.classList el)
      else
        let selector := Js.toLowerCase (Dom.tagName el) in
        match Dom.parentElement element d with
        | Some parent =>
            let siblings :=
              filter (fun child => Dom.tagName child = Dom.tagName el)
                     (Dom.children parent) in
            if (1 <? length siblings)%nat
            then let index := Js.indexOf (Dom.key <$> siblings) element in
                 selector +:+ ":nth-child(" +:+ pretty (index + 1)%Z +:+ ")"
            else selector
        | None => selector
        end
  end.

Definition updateInfoPanel (element : nat) (isSelected : bool)
    (e : Engine) (p : Page) : Page :=
  let selector := getSelector (doc p) element in
  let el := Dom.lookup element (doc p) in
  let tagName := Js.toLowerCase (from_option Dom.tagName "" el) in
  let classes := Js.join "." (from_option Dom.classList [] el) in
  let id := if Js.truthy (id_of element p) then "#" +:+ id_of element p else "" in
  let identity :=
    tagName +:+ (if Js.truthy id then " " +:+ id else "")
            +:+ (if Js.truthy classes then " ." +:+ classes else "") in
  let ip := infoPanel (ui e) in
  let p :=
    if isSelected
    then set_innerHTML ip
           ("<div><strong>Selected:</strong> " +:+ identity +:+ "</div>" +:+
            "<div><strong>Selector:</strong> " +:+ selector +:+ "</div>" +:+
            "<div style='color: green; margin-top: 5px;'>Element selected! " +:+
            "Click again to open dialog or click outside to deselect.</div>")
           [ Dom.Tag "DIV" "" [] [Dom.Tag "STRONG" "" [] []];
             Dom.Tag "DIV" "" [] [Dom.Tag "STRONG" "" [] []];
             Dom.Tag "DIV" "" [] [] ] p
    else set_innerHTML ip
           ("<div><strong>Element:</strong> " +:+ identity +:+ "</div>" +:+
            "<div><strong>Selector:</strong> " +:+ selector +:+ "</div>" +:+
            "<div><strong>Text:</strong> " +:+
            Js.prefix 50 (textContent (doc p) element) +:+ "</div>" +:+
            "<div style='margin-top: 5px;'>Click to select this element</div>")
           [ Dom.Tag "DIV" "" [] [Dom.Tag "STRONG" "" [] []];
             Dom.Tag "DIV" "" [] [Dom.Tag "STRONG" "" [] []];
             Dom.Tag "DIV" "" [] [Dom.Tag "STRONG" "" [] []];
             Dom.Tag "DIV" "" [] [] ] p in
  set_style ip "display" "block" p.

Definition positionDialog (element : nat) (e : Engine) (p : Page) : Page :=
  let rect := getBoundingClientRect (doc p) element in
  let viewportWidth := innerWidth in
  let dg := dialogBox (ui e) in
  let p := if (right rect + 320 <? viewportWidth)%Z
           then set_style dg "left" (px (right rect + 10)) p
           else set_style dg "left" (px (Z.max 10 (left rect - 310))) p in
  let p := set_style dg "top" (px (top rect)) p in
  set_style dg "display" "block" p.

Definition hideDialog (e : Engine) (p : Page) : Page :=
  let p := set_style (dialogBox (ui e)) "display" "none" p in
  match Dom.getElementById "mcp-modification-request" (doc p) with
  | Some textarea => set_value textarea "" p
  | None => p
  end.

Definition submitModificationRequest (e : Engine) (p : Page) : Page :=
  match Dom.getElementById "mcp-modification-request" (doc p), selectedElement e with
  | Some textarea, Some sel =>
      let request := Js.trim (get_value textarea p) in
      if Js.truthy request then
        let p := with_selectedElement
                   (Some {| rec_element := Some sel;
                            rec_selector := getSelector (doc p) sel;
                            rec_html := outerHTML (doc p) sel;
                            rec_css := getComputedStyle (doc p) sel;
                            rec_modificationRequest := Some request |}) p in
        let p := set_innerHTML (infoPanel (ui e))
                   ("<div style='color: green;'>Modification request submitted!</div>" +:+
                    "<div style='margin-top: 5px;'>Request: " +:+ Js.dquote +:+
                    Js.prefix 50 request +:+
                    (if (50 <? String.length request)%nat then "..." else "") +:+
                    Js.dquote +:+ "</div>")
                   [ Dom.Tag "DIV" "" [] []; Dom.Tag "DIV" "" [] [] ] p in
        hideDialog e p
      else p
  | _, _ => p
  end.

Definition toggleSelectionMode (e : Engine) (p : Page) : Engine * Page :=
  let e := set_isSelectionModeActive (negb (isSelectionModeActive e)) e in
  let tg := toggleButton (ui e) in
  if isSelectionModeActive e then
    let p := set_style tg "backgroundColor" "#28a745" p in
    let p := with_innerHTML (<[tg := "Selection Mode: ON"]> (innerHTML p)) p in
    let p := set_style (overlay (ui e)) "display" "block" p in
    let p := set_style (infoPanel (ui e)) "display" "block" p in
    let e := set_isSelectionLocked false e in
    let e := set_selectedElement None e in
    let p := hideDialog e p in
    let p := set_style (overlay (ui e)) "pointerEvents" "none" p in
    (e, p)
  else
    let p := set_style tg "backgroundColor" "#007bff" p in
    let p := with_innerHTML (<[tg := "Select Element"]> (innerHTML p)) p in
    let p := set_style (overlay (ui e)) "display" "none" p in
    let p := set_style (infoPanel (ui e)) "display" "none" p in
    let p := hideHighlightBox e p in
    let p := hideDialog e p in
    let e := set_isSelectionLocked false e in
    let e := set_selectedElement None e in
    let e := set_currentElement None e in
    (e, p).

(** [resizeWindow]: [window.resizeTo] with the allowance for the browser
    chrome, then the two custom-size inputs. *)
Definition resizeWindow (w h : Z) (p : Page) : Page :=
  let p := with_windowSize (Some (w + 16, h + 88)%Z) p in
  match Dom.getElementById "mcp-width-input" (doc p),
        Dom.getElementById "mcp-height-input" (doc p) with
  | Some widthInput, Some heightInput =>
      set_value heightInput (pretty h) (set_value widthInput (pretty w) p)
  | _, _ => p
  end.

(** *** The listeners *)

(** [document.addEventListener('mouseover', ...)] *)
Definition on_mouseover (target : nat) (e : Engine) (p : Page) : Engine * Page :=
  if negb (isSelectionModeActive e) || isSelectionLocked e then (e, p)
  else
    let u := ui e in
    if negb (target =? overlay u)%nat
       && negb (target =? infoPanel u)%nat
       && negb (Dom.contains (doc p) (infoPanel u) target)
       && negb (target =? dialogBox u)%nat
       && negb (Dom.contains (doc p) (dialogBox u) target)
       && negb (target =? toggleButton u)%nat
       && negb (String.eqb (id_of target p) "mcp-inspector-highlight")
    then
      let e := set_currentElement (Some target) e in
      let '(e, p) := updateHighlightBox target false e p in
      (e, updateInfoPanel target false e p)
    else (e, p).

(** [document.addEventListener('click', ...)] *)
Definition on_click (target : nat) (e : Engine) (p : Page) : Engine * Page :=
  let u := ui e in
  (* Handle toggle button click *)
  if (target =? toggleButton u)%nat || Dom.contains (doc p) (toggleButton u) target
  then toggleSelectionMode e p
  (* Only process other clicks if selection mode is active *)
  else if negb (isSelectionModeActive e) then (e, p)
  (* Handle clicks on dialog buttons *)
  else if String.eqb (id_of target p) "mcp-cancel-button" then (e, hideDialog e p)
  else if String.eqb (id_of target p) "mcp-submit-button"
  then (e, submitModificationRequest e p)
  (* Ignore clicks on the dialog itself *)
  else if Dom.contains (doc p) (dialogBox u) target then (e, p)
  (* Handle clicks on the info panel *)
  else if Dom.contains (doc p) (infoPanel u) target then (e, p)
  else
    let inside :=
      match selectedElement e with
      | Some sel =>
          if isSelectionLocked e
             && ((sel =? target)%nat || Dom.contains (doc p) sel target)
          then Some sel else None
      | None => None
      end in
    match inside with
    | Some sel =>
        (* If selection is locked and clicking on the selected element *)
        (e, positionDialog sel e p)
    | None =>
        if isSelectionLocked e then
          (* If selection is locked and clicking outside *)
          let e := set_isSelectionLocked false e in
          let e := set_selectedElement None e in
          let p := hideDialog e p in
          (* If clicking on a valid element, select it *)
          if negb (target =? overlay u)%nat
             && negb (String.eqb (id_of target p) "mcp-inspector-highlight")
          then
            let e := set_currentElement (Some target) e in
            let '(e, p) := updateHighlightBox target false e p in
            (e, updateInfoPanel target false e p)
          else (e, p)
        else
          (* Normal selection (not locked yet) *)
          match currentElement e with
          | Some cur =>
              let e := set_isSelectionLocked true e in
              let e := set_selectedElement (Some cur) e in
              let '(e, p) := updateHighlightBox cur true e p in
              (e, updateInfoPanel cur true e p)
          | None => (e, p)
          end
    end.

(** The listener on [#mcp-cancel-button]. *)
Definition on_cancel_button (e : Engine) (p : Page) : Engine * Page :=
  (e, hideDialog e p).

(** The listener on [#mcp-submit-button]. *)
Definition on_submit_button (e : Engine) (p : Page) : Engine * Page :=
  (e, submitModificationRequest e p).

(** The listener on [#mcp-apply-size]; reading [value] off a missing input
    throws, which ends the listener. *)
Definition on_apply_button (e : Engine) (p : Page) : Engine * Page :=
  match Dom.getElementById "mcp-width-input" (doc p),
        Dom.getElementById "mcp-height-input" (doc p) with
  | Some widthInput, Some heightInput =>
      match Js.parseInt (get_value widthInput p),
            Js.parseInt (get_value heightInput p) with
      | Some w, Some h =>
          if (0 <? w)%Z && (0 <? h)%Z then (e, resizeWindow w h p) else (e, p)
      | _, _ => (e, p)
      end
  | _, _ => (e, p)
  end.

(** The [change] listener on [#mcp-device-dropdown]. *)
Definition on_dropdown_change (dropdown : nat) (e : Engine) (p : Page) : Engine * Page :=
  match Js.parseInt (get_value dropdown p) with
  | Some selectedIndex =>
      if (0 <=? selectedIndex)%Z && (selectedIndex <? Z.of_nat (length deviceSizes))%Z
      then match deviceSizes !! Z.to_nat selectedIndex with
           | Some (_, w, h) => (e, resizeWindow w h p)
           | None => (e, p)
           end
      else (e, p)
  | None => (e, p)
  end.

(** *** Dispatch *)

(** The listeners a closure registered on node [n] itself.  Each of them
    calls [stopPropagation]. *)
Definition listeners_at (n : nat) (e : Engine)
    : list (Engine -> Page -> Engine * Page) :=
  (if decide (applyNode (ui e) = Some n) then [on_apply_button] else []) ++
  (if decide (cancelNode (ui e) = Some n) then [on_cancel_button] else []) ++
  (if decide (submitNode (ui e) = Some n) then [on_submit_button] else []).

Definition has_listener (es : list Engine) (n : nat) : bool :=
  existsb (fun e => bool_decide (listeners_at n e ≠ [])) es.

(** A click on [target]: it bubbles from the target to the document; the
    first node on the way that carries listeners runs them and stops the
    propagation, so the document listeners run only when there is none. *)
Definition click (target : nat) (t : Tab Engine) : Tab Engine :=
  match Dom.propagation_path target (doc (tab_page t)) with
  | [] => t
  | path =>
      match find (has_listener (closures t)) path with
      | Some n =>
          let '(es, p) := run_each (fun e => run_all (listeners_at n e) e)
                            (closures t) (tab_page t) in
          MkTab p es
      | None =>
          let '(es, p) := run_each (on_click target) (closures t) (tab_page t) in
          MkTab p es
      end
  end.

Definition mouseover (target : nat) (t : Tab Engine) : Tab Engine :=
  match Dom.propagation_path target (doc (tab_page t)) with
  | [] => t
  | _ =>
      let '(es, p) := run_each (on_mouseover target) (closures t) (tab_page t) in
      MkTab p es
  end.

Definition change (target : nat) (v : string) (t : Tab Engine) : Tab Engine :=
  let p := set_value target v (tab_page t) in
  let '(es, p) :=
    run_each (fun e q => if decide (dropdownNode (ui e) = Some target)
                         then on_dropdown_change target e q else (e, q))
             (closures t) p in
  MkTab p es.

Definition dispatch (ev : Event) (t : Tab Engine) : Tab Engine :=
  match ev with
  | Mouseover target => mouseover target t
  | Click target => click target t
  | Input target text => MkTab (set_value target text (tab_page t)) (closures t)
  | Change target v => change target v t
  | Timeout => MkTab (on_timeout (tab_page t)) (closures t)
  end.

(** [page.evaluate(script)]: one more closure in the tab. *)
Definition evaluate_script (t : Tab Engine) : Tab Engine :=
  let '(e, p) := inject (tab_page t) in
  MkTab p (closures t ++ [e]).

(** The stacking level of a node: its [z-index] as a number. *)
Definition zIndex (k : nat) (p : Page) : option Z :=
  Js.parseInt (get_style k "zIndex" p).

(** *** The selection state machine *)

(** The four states of the specification. *)
Inductive SelectionState :=
  | Idle
  | Hovering (target : option nat)
  | Locked (target : nat)
  | DialogOpen (target : nat).

(** The dialog is shown. *)
Definition dialogOpen (e : Engine) (p : Page) : bool :=
  String.eqb (get_style (dialogBox (ui e)) "display" p) "block".

(** Reading the state off the variables of the closure and the dialog. *)
Definition state_of (e : Engine) (p : Page) : SelectionState :=
  if negb (isSelectionModeActive e) then Idle
  else match isSelectionLocked e, selectedElement e with
       | true, Some sel => if dialogOpen e p then DialogOpen sel else Locked sel
       | _, _ => Hovering (currentElement e)
       end.

(** What the engine knows of the page selection: the hovered element, the
    locked element and the lock. *)
Definition selection (e : Engine) : option nat * option nat * bool :=
  (currentElement e, selectedElement e, isSelectionLocked e).

(** The closure as the script leaves it and as switching the mode off
    resets it: mode off, nothing hovered, nothing selected, not locked. *)
Definition idle (e : Engine) : Prop :=
  isSelectionModeActive e = false /\ selection e = (None, None, false).

(** The target of an event lies on one of the engine's own surfaces: the
    info panel, the dialog, the toggle button or the device selector. *)
Definition on_surface (e : Engine) (p : Page) (target : nat) : bool :=
  Dom.contains (doc p) (infoPanel (ui e)) target
  || Dom.contains (doc p) (dialogBox (ui e)) target
  || Dom.contains (doc p) (toggleButton (ui e)) target
  || Dom.contains (doc p) (deviceSelector (ui e)) target.

(** Runs made of clicks on the engine's surfaces only, in a tab with one
    closure. *)
Inductive surface_clicks : Engine * Page -> Engine * Page -> Prop :=
  | surface_clicks_nil ep : surface_clicks ep ep
  | surface_clicks_step ep e p target e' p' :
      surface_clicks ep (e, p) ->
      on_surface e p target = true ->
      click target (MkTab p [e]) = MkTab p' [e'] ->
      surface_clicks ep (e', p').

(** A click that submits the dialog: it bubbles through the node that
    carries the submit listener, or its target has the id of the submit
    button. *)
Definition submit_click (e : Engine) (p : Page) (target : nat) : Prop :=
  (exists n, n ∈ Dom.propagation_path target (doc p) /\ submitNode (ui e) = Some n)
  \/ id_of target p = "mcp-submit-button".

(** What a record written by a submit looks like: it is for the selected
    element and carries a message that is not empty. *)
Definition submitted (e : Engine) (r : SelectionRecord) : Prop :=
  exists sel m, selectedElement e = Some sel /\ rec_element r = Some sel
                /\ rec_modificationRequest r = Some m /\ m <> "".

(** The same runs, computed: the clicks are made in turn as long as each
    lands on a surface. *)
Fixpoint surface_clicks_from (targets : list nat) (e : Engine) (p : Page)
    : option (Engine * Page) :=
  match targets with
  | [] => Some (e, p)
  | target :: rest =>
      if on_surface e p target then
        match click target (MkTab p [e]) with
        | MkTab p' [e'] => surface_clicks_from rest e' p'
        | _ => None
        end
      else None
  end.

(** The dialog is a node of its own, older than any node yet to be created. *)
Definition dialog_apart (e : Engine) (p : Page) : Prop :=
  dialogBox (ui e) <> infoPanel (ui e)
  /\ highlightBox e <> Some (dialogBox (ui e))
  /\ dialogBox (ui e) < nextKey p.

(** *** Tabs over time *)

(** The lock and the selected element go together: with the mode off
    nothing is hovered, selected or locked; a locked closure has a selected
    element, the one it last hovered; an unlocked one has none. *)
Definition consistent (e : Engine) : Prop :=
  (isSelectionModeActive e = false -> selection e = (None, None, false))
  /\ (isSelectionLocked e = true ->
      is_Some (selectedElement e) /\ selectedElement e = currentElement e)
  /\ (isSelectionLocked e = false -> selectedElement e = None).

(** What a closure keeps over an event: its surfaces, and its highlight box
    once it has one. *)
Definition keeps (e e' : Engine) : Prop :=
  ui e' = ui e /\ (is_Some (highlightBox e) -> highlightBox e' = highlightBox e).

(** What happens in a tab: the host injects the script once more, or an
    event occurs in the page. *)
Inductive Action :=
  | Inject
  | User (ev : Event).

Definition act (a : Action) (t : Tab Engine) : Tab Engine :=
  match a with
  | Inject => evaluate_script t
  | User ev => dispatch ev t
  end.

(** The tab a page has become after a run of actions. *)
Definition life (p : Page) (acts : list Action) : Tab Engine :=
  foldl (fun t a => act a t) (MkTab p []) acts.

(** The window was left alone, or resized for a viewport of positive width
    and height plus the allowance for the browser chrome. *)
Definition resized (p p' : Page) : Prop :=
  windowSize p' = windowSize p
  \/ exists w h, (0 < w)%Z /\ (0 < h)%Z /\ windowSize p' = Some (w + 16, h + 88)%Z.

End Script.

End V1.

(** ** The floating-icon engine *)

Module V2.

Record Surfaces := {
  floatingIcon : nat;
  toolbar : nat;
  selectElementButton : nat;
  changeResolutionButton : nat;
  resolutionPicker : nat;
  closeButton : nat;
}.

(** A listener the selecting click put on a dialog button: the button it
    was attached to and the variables its closure captured. *)
Record DialogListener := {
  dl_node : nat;
  dl_send : bool;
  dl_dialogBox : nat;
  dl_target : nat;
  dl_originalBackgroundColor : string;
}.

(** One run of the script.  [documentListeners] counts how many times the
    pair of document listeners (mouseover, capturing click) was registered:
    once per activation of the selection mode. *)
Record Engine := {
  ui : Surfaces;
  isToolbarVisible : bool;
  isResolutionPickerVisible : bool;
  isSelectionModeActive : bool;
  documentListeners : nat;
  dialogListeners : list DialogListener;
}.

Definition set_isToolbarVisible (v : bool) (e : Engine) : Engine :=
  {| ui := ui e; isToolbarVisible := v;
     isResolutionPickerVisible := isResolutionPickerVisible e;
     isSelectionModeActive := isSelectionModeActive e;
     documentListeners := documentListeners e;
     dialogListeners := dialogListeners e |}.

Definition set_isResolutionPickerVisible (v : bool) (e : Engine) : Engine :=
  {| ui := ui e; isToolbarVisible := isToolbarVisible e;
     isResolutionPickerVisible := v;
     isSelectionModeActive := isSelectionModeActive e;
     documentListeners := documentListeners e;
     dialogListeners := dialogListeners e |}.

Definition set_isSelectionModeActive (v : bool) (e : Engine) : Engine :=
  {| ui := ui e; isToolbarVisible := isToolbarVisible e;
     isResolutionPickerVisible := isResolutionPickerVisible e;
     isSelectionModeActive := v;
     documentListeners := documentListeners e;
     dialogListeners := dialogListeners e |}.

Definition set_documentListeners (v : nat) (e : Engine) : Engine :=
  {| ui := ui e; isToolbarVisible := isToolbarVisible e;
     isResolutionPickerVisible := isResolutionPickerVisible e;
     isSelectionModeActive := isSelectionModeActive e;
     documentListeners := v;
     dialogListeners := dialogListeners e |}.

Definition set_dialogListeners (v : list DialogListener) (e : Engine) : Engine :=
  {| ui := ui e; isToolbarVisible := isToolbarVisible e;
     isResolutionPickerVisible := isResolutionPickerVisible e;
     isSelectionModeActive := isSelectionModeActive e;
     documentListeners := documentListeners e;
     dialogListeners := v |}.

(** *** The injected nodes *)

Definition floatingIcon_style : list (string * string) :=
  [ ("position", "fixed"); ("bottom", "10px"); ("right", "10px");
    ("width", "50px"); ("height", "50px"); ("borderRadius", "50%");
    ("backgroundColor", "#007bff");
    ("boxShadow", "0 2px 10px rgba(0, 0, 0, 0.3)"); ("cursor", "pointer");
    ("zIndex", "2147483647"); ("display", "flex"); ("alignItems", "center");
    ("justifyContent", "center"); ("transition", "all 0.3s ease");
    ("transform", "scale(0.9)") ].

(** The two icons drawn inside the floating button. *)
Definition arrow_icon : list Dom.Markup :=
  [ Dom.Tag "svg" "" [] [ Dom.Tag "path" "" [] []; Dom.Tag "path" "" [] [] ] ].

Definition cross_icon : list Dom.Markup :=
  [ Dom.Tag "svg" "" [] [ Dom.Tag "line" "" [] []; Dom.Tag "line" "" [] [] ] ].

Definition toolbar_style : list (string * string) :=
  [ ("position", "fixed"); ("bottom", "20px"); ("right", "80px");
    ("backgroundColor", "white"); ("borderRadius", "8px");
    ("boxShadow", "0 2px 10px rgba(0, 0, 0, 0.2)"); ("padding", "10px");
    ("display", "none"); ("zIndex", "10002") ].

Definition toolbar_markup : Dom.Markup :=
  Dom.Tag "DIV" "mcp-toolbar" []
    [ Dom.Tag "BUTTON" "mcp-select-element-btn" [] [];
      Dom.Tag "BUTTON" "mcp-change-resolution-btn" [] [] ].

Definition resolutionPicker_style : list (string * string) :=
  [ ("position", "fixed"); ("bottom", "80px"); ("right", "80px");
    ("backgroundColor", "white"); ("borderRadius", "8px");
    ("boxShadow", "0 2px 10px rgba(0, 0, 0, 0.2)"); ("padding", "15px");
    ("display", "none"); ("zIndex", "10004"); ("width", "300px") ].

Definition resolutionPicker_markup : Dom.Markup :=
  Dom.Tag "DIV" "mcp-resolution-picker" []
    [ Dom.Tag "DIV" "mcp-close-resolution" [] [] ].

(** The script passed to [page.evaluate] by [inspectElement]: nothing is
    removed first.  The children of a surface take the keys that follow its
    own. *)
Definition inject (p : Page) : Engine * Page :=
  let '(fi, p) := addNode (Dom.Tag "DIV" "mcp-floating-icon" [] arrow_icon)
                    floatingIcon_style (Some "<svg>arrow</svg>") p in
  let '(tb, p) := addNode toolbar_markup toolbar_style None p in
  let '(rp, p) := addNode resolutionPicker_markup resolutionPicker_style None p in
  ({| ui := {| floatingIcon := fi; toolbar := tb;
               selectElementButton := S tb;
               changeResolutionButton := S (S tb);
               resolutionPicker := rp; closeButton := S rp |};
      isToolbarVisible := false; isResolutionPickerVisible := false;
      isSelectionModeActive := false;
      documentListeners := 0; dialogListeners := [] |}, p).

(** *** The functions of the script *)

Section Script.
Context {rd : Renderer}.

(** [getUniqueSelector], written along the chain of ancestors of the
    element (the element first, the root last), which is the chain the
    recursive calls on [parentElement] follow. *)
Fixpoint uniqueSelector (d : Dom.Element) (chain : list nat) : string :=
  match chain with
  | [] => ""
  | element :: up =>
      match Dom.lookup element d with
      | None => ""
      | Some el =>
          if Js.truthy (Dom.elemId el) then "#" +:+ Dom.elemId el
          else if String.eqb (Dom.tagName el) "BODY" then "body"
          else
            match head up ≫= (fun k => Dom.lookup k d) with
            | None => Js.toLowerCase (Dom.tagName el)
            | Some parent =>
                let siblings :=
                  filter (fun child => Dom.tagName child = Dom.tagName el)
                         (Dom.children parent) in
                if (length siblings =? 1)%nat
                then uniqueSelector d up +:+ " > " +:+ Js.toLowerCase (Dom.tagName el)
                else
                  let index := Js.indexOf (Dom.key <$> siblings) element in
                  uniqueSelector d up +:+ " > " +:+ Js.toLowerCase (Dom.tagName el)
                    +:+ ":nth-child(" +:+ pretty (index + 1)%Z +:+ ")"
            end
      end
  end.

Definition getUniqueSelector (d : Dom.Element) (element : nat) : string :=
  uniqueSelector d (Dom.propagation_path element d).

(** Removing the node found by [querySelector('.mcp-element-highlight')],
    if any. *)
Definition removeHighlight (p : Page) : option Page :=
  match Dom.firstOfClass "mcp-element-highlight" (doc p) with
  | Some h => removeChildOfBody h p
  | None => Some p
  end.

Definition highlightElement (element : nat) (p : Page) : Page :=
  match removeHighlight p with
  | None => p
  | Some p =>
      let rect := getBoundingClientRect (doc p) element in
      let '(k, p) := createElement p in
      let p := set_styles k
                 [ ("position", "fixed"); ("top", px (top rect));
                   ("left", px (left rect)); ("width", px (width rect));
                   ("height", px (height rect)); ("border", "2px solid #ff0000");
                   ("backgroundColor", "rgba(255, 0, 0, 0.2)");
                   ("pointerEvents", "none"); ("zIndex", "2147483646") ] p in
      appendToBody (Dom.Elem k "DIV" "" ["mcp-element-highlight"] []) p
  end.

Definition restoreIcon (e : Engine) (p : Page) : Page :=
  let fi := floatingIcon (ui e) in
  let p := set_style fi "backgroundColor" "#007bff" p in
  set_innerHTML fi "<svg>arrow</svg>" arrow_icon p.

Definition dialogBox_style : list (string * string) :=
  [ ("position", "fixed"); ("top", "50%"); ("left", "50%");
    ("transform", "translate(-50%, -50%)"); ("backgroundColor", "white");
    ("borderRadius", "8px"); ("boxShadow", "0 4px 20px rgba(0, 0, 0, 0.3)");
    ("padding", "20px"); ("zIndex", "2147483647"); ("width", "400px");
    ("maxWidth", "90%") ].

Definition dialogBox_markup : Dom.Markup :=
  Dom.Tag "DIV" "mcp-dialog-box" []
    [ Dom.Tag "H3" "" [] [];
      Dom.Tag "P" "" [] [];
      Dom.Tag "TEXTAREA" "mcp-message-input" [] [];
      Dom.Tag "DIV" "" []
        [ Dom.Tag "BUTTON" "mcp-cancel-btn" [] [];
          Dom.Tag "BUTTON" "mcp-send-btn" [] [] ] ].

Definition notification_style : list (string * string) :=
  [ ("position", "fixed"); ("top", "20px"); ("left", "50%");
    ("transform", "translateX(-50%)"); ("backgroundColor", "#28a745");
    ("color", "white"); ("padding", "10px 20px"); ("borderRadius", "5px");
    ("boxShadow", "0 2px 10px rgba(0, 0, 0, 0.2)"); ("zIndex", "2147483647") ].

(** The capturing click listener on the document.  The boolean tells
    whether [stopPropagation] was called. *)
Definition on_capture_click (target : nat) (e : Engine) (p : Page)
    : Engine * Page * bool :=
  if negb (isSelectionModeActive e) then (e, p, false)
  else
    let u := ui e in
    (* Don't select the floating icon or toolbar *)
    if Dom.contains (doc p) (floatingIcon u) target
       || Dom.contains (doc p) (toolbar u) target
       || Dom.contains (doc p) (resolutionPicker u) target
    then (e, p, true)
    else
      (* Store selected element info in window object *)
      let p := with_selectedElement
                 (Some {| rec_element := None;
                          rec_selector := getUniqueSelector (doc p) target;
                          rec_html := outerHTML (doc p) target;
                          rec_css := getComputedStyle (doc p) target;
                          rec_modificationRequest := None |}) p in
      (* Exit selection mode *)
      let e := set_isSelectionModeActive false e in
      let p := restoreIcon e p in
      match removeHighlight p with
      | None => (e, p, true)
      | Some p =>
          (* Turn the selected element green *)
          let originalBackgroundColor := get_style target "backgroundColor" p in
          let p := set_style target "backgroundColor" "rgba(40, 167, 69, 0.3)" p in
          let p := set_style target "transition" "background-color 0.3s ease" p in
          (* Create dialog box for sending a message *)
          let selector := getUniqueSelector (doc p) target in
          let '(dg, p) := addNode dialogBox_markup dialogBox_style
                            (Some ("<h3>Element Selected</h3><p>Selected element: "
                                   +:+ selector +:+ "</p>")) p in
          let p := with_timers (timers p ++ [FocusTextarea]) p in
          let mk (i : string) (send : bool) : list DialogListener :=
            match Dom.getElementById i (doc p) with
            | Some b => [ {| dl_node := b; dl_send := send; dl_dialogBox := dg;
                             dl_target := target;
                             dl_originalBackgroundColor := originalBackgroundColor |} ]
            | None => []
            end in
          let e := set_dialogListeners
                     (dialogListeners e ++ mk "mcp-cancel-btn" false
                                        ++ mk "mcp-send-btn" true) e in
          (e, p, true)
      end.

(** The listener on [#mcp-cancel-btn]. *)
Definition on_cancel (l : DialogListener) (p : Page) : Page :=
  match removeChildOfBody (dl_dialogBox l) p with
  | None => p
  | Some p =>
      set_style (dl_target l) "backgroundColor" (dl_originalBackgroundColor l) p
  end.

(** The listener on [#mcp-send-btn]. *)
Definition on_send (l : DialogListener) (p : Page) : Page :=
  match Dom.getElementById "mcp-message-input" (doc p) with
  | None => p
  | Some messageInput =>
      let message := Js.trim (get_value messageInput p) in
      let p :=
        if Js.truthy message then
          (* Store the message in the window object *)
          let p := with_selectedElementMessage (Some message) p in
          (* Show success notification *)
          let '(n, p) := addNode (Dom.Tag "DIV" "" [] []) notification_style
                           (Some "Message sent!") p in
          with_timers (timers p ++ [RemoveNotification n]) p
        else p in
      (* Remove dialog box *)
      match removeChildOfBody (dl_dialogBox l) p with
      | None => p
      | Some p =>
          with_timers
            (timers p ++ [RestoreBackground (dl_target l) (dl_originalBackgroundColor l)]) p
      end
  end.

(** The listener on the floating icon. *)
Definition on_floatingIcon (e : Engine) (p : Page) : Engine * Page :=
  let e := set_isToolbarVisible (negb (isToolbarVisible e)) e in
  (e, set_style (toolbar (ui e)) "display"
        (if isToolbarVisible e then "block" else "none") p).

(** The listener on the change-resolution button. *)
Definition on_changeResolution (e : Engine) (p : Page) : Engine * Page :=
  let e := set_isResolutionPickerVisible (negb (isResolutionPickerVisible e)) e in
  (e, set_style (resolutionPicker (ui e)) "display"
        (if isResolutionPickerVisible e then "block" else "none") p).

(** The listener on the close button of the resolution picker. *)
Definition on_closeResolution (e : Engine) (p : Page) : Engine * Page :=
  (set_isResolutionPickerVisible false e,
   set_style (resolutionPicker (ui e)) "display" "none" p).

(** The listener on the select-element button. *)
Definition on_selectElement (e : Engine) (p : Page) : Engine * Page :=
  let e := set_isSelectionModeActive (negb (isSelectionModeActive e)) e in
  if isSelectionModeActive e then
    let fi := floatingIcon (ui e) in
    let p := set_style fi "backgroundColor" "#dc3545" p in
    let p := set_innerHTML fi "<svg>cross</svg>" cross_icon p in
    let e := set_isToolbarVisible false e in
    let p := set_style (toolbar (ui e)) "display" "none" p in
    (set_documentListeners (S (documentListeners e)) e, p)
  else
    let p := restoreIcon e p in
    (e, default p (removeHighlight p)).

(** The mouseover listener on the document. *)
Definition on_mouseover (target : nat) (e : Engine) (p : Page) : Engine * Page :=
  if isSelectionModeActive e then (e, highlightElement target p) else (e, p).

(** The bubbling click listener on the document. *)
Definition on_document_click (target : nat) (e : Engine) (p : Page) : Engine * Page :=
  let u := ui e in
  if Dom.contains (doc p) (floatingIcon u) target
     || Dom.contains (doc p) (toolbar u) target
     || Dom.contains (doc p) (resolutionPicker u) target
  then (e, p)
  else if isSelectionModeActive e then (e, p)
  else
    let e := set_isToolbarVisible false e in
    let e := set_isResolutionPickerVisible false e in
    let p := set_style (toolbar u) "display" "none" p in
    (e, set_style (resolutionPicker u) "display" "none" p).

(** *** Dispatch *)

(** The listeners a closure has on node [n] itself; none of them stops the
    propagation. *)
Definition listeners_at (n : nat) (e : Engine)
    : list (Engine -> Page -> Engine * Page) :=
  let u := ui e in
  (if decide (floatingIcon u = n) then [on_floatingIcon] else []) ++
  (if decide (changeResolutionButton u = n) then [on_changeResolution] else []) ++
  (if decide (closeButton u = n) then [on_closeResolution] else []) ++
  (if decide (selectElementButton u = n) then [on_selectElement] else []) ++
  map (fun l e' q => (e', if dl_send l then on_send l q else on_cancel l q))
      (filter (fun l => dl_node l = n) (dialogListeners e)).

(** The capturing listeners of one closure, in turn. *)
Fixpoint capture (n : nat) (target : nat) (e : Engine) (p : Page)
    : Engine * Page * bool :=
  match n with
  | O => (e, p, false)
  | S n' =>
      let '(e, p, stopped) := on_capture_click target e p in
      let '(e, p, stopped') := capture n' target e p in
      (e, p, stopped || stopped')
  end.

Fixpoint capture_each (target : nat) (es : list Engine) (p : Page)
    : list Engine * Page * bool :=
  match es with
  | [] => ([], p, false)
  | e :: es' =>
      let '(e, p, stopped) := capture (documentListeners e) target e p in
      let '(es', p, stopped') := capture_each target es' p in
      (e :: es', p, stopped || stopped')
  end.

(** A click on [target]: the capturing listeners on the document first;
    unless one of them stopped the propagation, the listeners on the nodes
    from the target up to the body, and then the bubbling listeners on the
    document.  The path is the one the target had when the click started. *)
Definition click (target : nat) (t : Tab Engine) : Tab Engine :=
  match Dom.propagation_path target (doc (tab_page t)) with
  | [] => t
  | path =>
      let '(es, p, stopped) := capture_each target (closures t) (tab_page t) in
      if stopped then MkTab p es
      else
        let '(es, p) :=
          foldl (fun st n => run_each (fun e => run_all (listeners_at n e) e) st.1 st.2)
                (es, p) path in
        let '(es, p) := run_each (on_document_click target) es p in
        MkTab p es
  end.

Definition mouseover (target : nat) (t : Tab Engine) : Tab Engine :=
  match Dom.propagation_path target (doc (tab_page t)) with
  | [] => t
  | _ =>
      let '(es, p) :=
        run_each (fun e => run_all (replicate (documentListeners e) (on_mouseover target)) e)
                 (closures t) (tab_page t) in
      MkTab p es
  end.

Definition dispatch (ev : Event) (t : Tab Engine) : Tab Engine :=
  match ev with
  | Mouseover target => mouseover target t
  | Click target => click target t
  | Input target text | Change target text =>
      MkTab (set_value target text (tab_page t)) (closures t)
  | Timeout => MkTab (on_timeout (tab_page t)) (closures t)
  end.

(** [page.evaluate(script)]: one more closure in the tab. *)
Definition evaluate_script (t : Tab Engine) : Tab Engine :=
  let '(e, p) := inject (tab_page t) in
  MkTab p (closures t ++ [e]).

End Script.

End V2.

(** ** Selectors *)

(** The fragment of CSS selectors [document.querySelector] is given here:
    compound selectors made of a type, [#id], [.class] and [:nth-child(k)],
    joined by the child combinator [>].  Any other string is rejected as a
    syntax error. *)
Module Css.

Inductive Simple :=
  | Type_ (tag : string)
  | Id (i : string)
  | Class (c : string)
  | NthChild (k : Z).

Definition Compound := list Simple.

Definition is_ident_char (c : ascii) : bool :=
  let n := nat_of_ascii c in
  ((48 <=? n) && (n <=? 57) || (65 <=? n) && (n <=? 90)
   || (97 <=? n) && (n <=? 122) || (n =? 45) || (n =? 95))%nat.

(** A string made of identifier characters only. *)
Fixpoint is_ident (s : string) : bool :=
  match s with
  | "" => true
  | String c s' => is_ident_char c && is_ident s'
  end.

(** The token being read: its kind and its characters, last first. *)
Inductive Kind := KType | KId | KClass | KPseudo.

Definition strip_prefix (pre s : string) : option string :=
  if String.prefix pre s
  then Some (String.substring (String.length pre) (String.length s - String.length pre) s)
  else None.

Fixpoint all_digits (s : string) : bool :=
  match s with
  | "" => true
  | String c s' => bool_decide (is_Some (Ascii.is_nat c)) && all_digits s'
  end.

(** [nth-child(k)] with [k] a run of digits. *)
Definition pseudo (s : string) : option Simple :=
  body ← strip_prefix "nth-child(" s;
  match String.rev body with
  | String ")"%char ds =>
      let ds := String.rev ds in
      if negb (String.eqb ds "") && all_digits ds
      then NthChild <$> Js.digits None ds else None
  | _ => None
  end.

Definition close_token (k : Kind) (rbuf : string) : option Simple :=
  let s := String.rev rbuf in
  match k with
  | KPseudo => pseudo s
  | _ => if String.eqb s "" then None
         else Some match k with
                   | KType => Type_ s | KId => Id s | _ => Class s
                   end
  end.

(** Reading a compound selector character by character. *)
Fixpoint compound (acc : list Simple) (cur : option (Kind * string)) (s : string)
    : option Compound :=
  let flush := match cur with
               | Some (k, rbuf) => (fun x => acc ++ [x]) <$> close_token k rbuf
               | None => Some acc
               end in
  match s with
  | "" => match flush with
          | Some [] => None
          | r => r
          end
  | String c s' =>
      let start (k : Kind) := acc' ← flush; compound acc' (Some (k, "")) s' in
      if Ascii.eqb c "#" then start KId
      else if Ascii.eqb c "." then start KClass
      else if Ascii.eqb c ":" then start KPseudo
      else match cur with
           | Some (KPseudo, rbuf) =>
               if is_ident_char c || Ascii.eqb c "(" || Ascii.eqb c ")"
               then compound acc (Some (KPseudo, String c rbuf)) s' else None
           | Some (k, rbuf) =>
               if is_ident_char c then compound acc (Some (k, String c rbuf)) s'
               else None
           | None =>
               match acc with
               | [] => if is_ident_char c then compound acc (Some (KType, String c "")) s'
                       else None
               | _ => None
               end
           end
  end.

(** Splitting at every [>]. *)
Fixpoint split_child (rbuf : string) (s : string) : list string :=
  match s with
  | "" => [String.rev rbuf]
  | String c s' =>
      if Ascii.eqb c ">" then String.rev rbuf :: split_child "" s'
      else split_child (String c rbuf) s'
  end.

(** A selector, the subject (rightmost compound) last; [None] is the
    [SyntaxError] of [querySelector]. *)
Definition parse (s : string) : option (list Compound) :=
  mapM (fun part => compound [] None (Js.trim part)) (split_child "" s).

(** Position of a node among the element children of its parent, from 1.
    The root of the tree is the body, second child of the document element. *)
Definition child_index (d : Dom.Element) (k : nat) : Z :=
  match Dom.parentElement k d with
  | Some parent => (Js.indexOf (Dom.key <$> Dom.children parent) k + 1)%Z
  | None => 2%Z
  end.

Definition matches_simple (d : Dom.Element) (el : Dom.Element) (s : Simple) : bool :=
  match s with
  | Type_ t => String.eqb (Js.toLowerCase (Dom.tagName el)) (Js.toLowerCase t)
  | Id i => String.eqb (Dom.elemId el) i
  | Class c => bool_decide (c ∈ Dom.classList el)
  | NthChild n => (child_index d (Dom.key el) =? n)%Z
  end.

Definition matches_compound (d : Dom.Element) (c : Compound) (k : nat) : bool :=
  match Dom.lookup k d with
  | Some el => forallb (matches_simple d el) c
  | None => false
  end.

(** Matching a selector, subject first, against a node and its ancestors. *)
Fixpoint matches (d : Dom.Element) (rsel : list Compound) (chain : list nat) : bool :=
  match rsel, chain with
  | [], _ => true
  | c :: rsel', k :: up => matches_compound d c k && matches d rsel' up
  | _ :: _, [] => false
  end.

(** [document.querySelector(s)], for elements below the body: [None] when
    [s] is not a selector, [Some None] when nothing matches, and otherwise
    the first match in document order. *)
Definition querySelector (d : Dom.Element) (s : string) : option (option nat) :=
  sel ← parse s;
  Some (find (fun k => matches d (rev sel) (Dom.propagation_path k d)) (Dom.keys d)).

End Css.

(** ** The host driver *)

Module Host.

Inductive BrowserHandle := Chromium.

(** [elementInfo]: what [getElementInfo] caches for [modifyElement]. *)
Record ElementInfo := { selector : string; html : string; css : string }.

Inductive Content :=
  | Text (text : string)
  | Code (language text : string)
  | Image (data mimeType : string).

Record ToolResult := { content : list Content; isError : bool }.

(** The awaited calls into the automation engine. *)
Inductive Call := BrowserClose | PuppeteerLaunch | NewPage | Goto | Evaluate | Screenshot.

(** What the automation engine does during one tool call: which awaited
    calls reject (and with what error), the page a navigation produces and
    the screenshot taken. *)
Record Env := {
  rejects : Call -> option string;
  loaded : Page;
  screenshot : string;
}.

(** The arguments of [launch_browser] and [modify_element]; a missing
    property is [None]. *)
Record LaunchArgs := { url : option string }.
Record ModifyArgs := {
  css_arg : option (list (string * string));
  html_arg : option string;
}.

(** The three module-level variables. *)
Record State (E : Type) := MkState {
  browser : option BrowserHandle;
  page : option (Tab E);
  elementInfo : option ElementInfo;
}.
Arguments MkState {E} _ _ _.
Arguments browser {E} _.
Arguments page {E} _.
Arguments elementInfo {E} _.

Definition initial {E : Type} : State E := MkState None None None.

(** The page of a tab just opened. *)
Definition blank : Page :=
  {| doc := Dom.Elem 0 "BODY" "" [] []; nextKey := 1; style := ∅; value := ∅;
     innerHTML := ∅; window_selectedElement := None;
     window_selectedElementMessage := None; windowSize := None; timers := [] |}.

(** *** Asynchronous methods: state and exceptions *)

Inductive Outcome (A : Type) :=
  | Ok (a : A)
  | Throw (error : string).
Arguments Ok {A} _.
Arguments Throw {A} _.

(** A method body: it reads and writes the module-level variables and
    either returns or throws; what it wrote before throwing stays written. *)
Definition M (E A : Type) : Type := State E -> Outcome A * State E.

Definition ret {E A : Type} (a : A) : M E A := fun s => (Ok a, s).

Definition bind {E A B : Type} (m : M E A) (f : A -> M E B) : M E B :=
  fun s => match m s with
           | (Ok a, s') => f a s'
           | (Throw err, s') => (Throw err, s')
           end.

Definition throw {E A : Type} (err : string) : M E A := fun s => (Throw err, s).

Definition get {E : Type} : M E (State E) := fun s => (Ok s, s).

Definition put {E : Type} (s : State E) : M E unit := fun _ => (Ok tt, s).

(** [try { body } catch (error) { return handler(error) }] *)
Definition try_catch {E A : Type} (body : M E A) (handler : string -> A)
    (s : State E) : A * State E :=
  match body s with
  | (Ok a, s') => (a, s')
  | (Throw err, s') => (handler err, s')
  end.

Declare Scope host_scope.
Delimit Scope host_scope with host.
Notation "x <- m ;; k" := (bind m (fun x => k))
  (at level 100, m at next level, right associativity) : host_scope.
Notation "m ;; k" := (bind m (fun _ => k))
  (at level 100, right associativity) : host_scope.

Definition truthy (o : option string) : bool :=
  match o with
  | Some s => Js.truthy s
  | None => false
  end.

Definition error_result (text : string) : ToolResult :=
  {| content := [Text text]; isError := true |}.

Definition not_launched : ToolResult :=
  error_result "Browser is not launched. Please launch the browser first.".

Definition no_element_selected : ToolResult :=
  error_result
    "No element selected. Please use the inspect_element tool and click on an element first.".

Definition closed_successfully : ToolResult :=
  {| content := [ Text "Browser closed successfully." ]; isError := false |}.

Definition launched_on (a : LaunchArgs) (env : Env) : ToolResult :=
  {| content := [ Text ("Browser launched and navigated to " +:+ default "" (url a));
                  Image (screenshot env) "image/png" ];
     isError := false |}.

Definition modified_successfully (info : ElementInfo) (env : Env) : ToolResult :=
  {| content := [ Text ("Element " +:+ selector info +:+ " modified successfully.");
                  Image (screenshot env) "image/png" ];
     isError := false |}.

Section Driver.
Context {rd : Renderer} {E : Type}.

(** The script [inspectElement] evaluates in the page, and whether
    [getElementInfo] also reads [window.selectedElementMessage] (the build
    with the floating icon does). *)
Variable script : Tab E -> Tab E.
Variable reads_message : bool.

Local Open Scope host_scope.

(** [await c]: the call rejects or resolves as the environment says. *)
Definition await (env : Env) (c : Call) : M E unit :=
  match rejects env c with
  | Some err => throw err
  | None => ret tt
  end.

Definition closeBrowser (env : Env) : M E unit :=
  s <- get ;;
  match browser s with
  | Some _ =>
      await env BrowserClose ;;
      (* browser = null; page = null; elementInfo = null *)
      put (MkState None None None)
  | None => ret tt
  end.

Definition launchBrowser (args : option LaunchArgs) (env : Env)
    : State E -> ToolResult * State E :=
  try_catch
    (s <- get ;;
     match browser s with Some _ => closeBrowser env | None => ret tt end ;;
     match args with
     | None => throw "TypeError: Cannot read properties of undefined (reading 'url')"
     | Some a =>
         if negb (truthy (url a)) then ret (error_result "URL is required")
         else
           await env PuppeteerLaunch ;;
           s <- get ;; put (MkState (Some Chromium) (page s) (elementInfo s)) ;;
           await env NewPage ;;
           s <- get ;; put (MkState (browser s) (Some (MkTab blank [])) (elementInfo s)) ;;
           await env Goto ;;
           s <- get ;;
           put (MkState (browser s) (Some (MkTab (loaded env) [])) (elementInfo s)) ;;
           await env Screenshot ;;
           ret {| content :=
                    [ Text ("Browser launched and navigated to " +:+ default "" (url a));
                      Image (screenshot env) "image/png" ];
                  isError := false |}
     end)
    (fun error => error_result ("Error launching browser: " +:+ error)).

Definition inspectElement (env : Env) : State E -> ToolResult * State E :=
  try_catch
    (s <- get ;;
     match browser s, page s with
     | Some _, Some t =>
         await env Evaluate ;;
         put (MkState (browser s) (Some (script t)) (elementInfo s)) ;;
         await env Screenshot ;;
         ret {| content :=
                  [ Text (if reads_message
                          then "Element inspection mode enabled. You should see a blue floating icon in the bottom-right corner. Click on it to show the toolbar."
                          else "Element inspection mode enabled. Click on any element in the browser to select it.");
                    Image (screenshot env) "image/png" ];
                isError := false |}
     | _, _ => ret not_launched
     end)
    (fun error => error_result ("Error enabling inspection mode: " +:+ error)).

Definition getElementInfo (env : Env) : State E -> ToolResult * State E :=
  try_catch
    (s <- get ;;
     match browser s, page s with
     | Some _, Some t =>
         await env Evaluate ;;
         match window_selectedElement (tab_page t) with
         | None => ret no_element_selected
         | Some selectedElement =>
             let message :=
               if reads_message
               then default "" (window_selectedElementMessage (tab_page t))
               else "" in
             (* Store element info for later use *)
             put (MkState (browser s) (page s)
                    (Some {| selector := rec_selector selectedElement;
                             html := rec_html selectedElement;
                             css := stringify (rec_css selectedElement) |})) ;;
             await env Screenshot ;;
             let h := rec_html selectedElement in
             ret {| content :=
                      (if Js.truthy message
                       then [ Text ("Message from user: " +:+ message) ] else []) ++
                      [ Text ("Selected element: " +:+ rec_selector selectedElement);
                        Text ("HTML: " +:+ Js.prefix 500 h +:+
                              (if (500 <? String.length h)%nat then "..." else ""));
                        Text "CSS (computed styles):";
                        Code "json" (stringify (rec_css selectedElement));
                        Image (screenshot env) "image/png" ];
                    isError := false |}
         end
     | _, _ => ret not_launched
     end)
    (fun error => error_result ("Error getting element info: " +:+ error)).

(** The first function [modifyElement] evaluates in the page. *)
Definition apply_css (sel : string) (props : list (string * string)) (t : Tab E)
    : Outcome (Tab E) :=
  match Css.querySelector (doc (tab_page t)) sel with
  | None => Throw "SyntaxError"
  | Some None => Ok t
  | Some (Some element) => Ok (MkTab (set_styles element props (tab_page t)) (closures t))
  end.

(** The second one: assigning [outerHTML] replaces the element by the nodes
    the markup parses to. *)
Definition apply_html (sel : string) (markup : string) (t : Tab E)
    : Outcome (Tab E) :=
  match Css.querySelector (doc (tab_page t)) sel with
  | None => Throw "SyntaxError"
  | Some None => Ok t
  | Some (Some element) =>
      let p := tab_page t in
      let '(new, n) := Dom.instantiate_all (nextKey p) (parseHTML markup) in
      Ok (MkTab (with_nextKey n (with_doc (Dom.replaceWith element new (doc p)) p))
                (closures t))
  end.

(** [await page.evaluate(f, data)] on the current page. *)
Definition evaluate (env : Env) (f : Tab E -> Outcome (Tab E)) : M E unit :=
  await env Evaluate ;;
  s <- get ;;
  match page s with
  | Some t =>
      match f t with
      | Ok t' => put (MkState (browser s) (Some t') (elementInfo s))
      | Throw err => throw err
      end
  | None => throw "TypeError"
  end.

Definition modifyElement (args : option ModifyArgs) (env : Env)
    : State E -> ToolResult * State E :=
  try_catch
    (s <- get ;;
     match browser s, page s with
     | Some _, Some _ =>
         match elementInfo s with
         | None => ret no_element_selected
         | Some info =>
             let sel := selector info in
             match args with
             | None => throw "TypeError: Cannot destructure property 'css' of 'args'"
             | Some a =>
                 (* Apply modifications *)
                 match css_arg a with
                 | Some props => evaluate env (apply_css sel props)
                 | None => ret tt
                 end ;;
                 (if truthy (html_arg a)
                  then evaluate env (apply_html sel (default "" (html_arg a)))
                  else ret tt) ;;
                 await env Screenshot ;;
                 ret {| content :=
                          [ Text ("Element " +:+ sel +:+ " modified successfully.");
                            Image (screenshot env) "image/png" ];
                        isError := false |}
             end
         end
     | _, _ => ret not_launched
     end)
    (fun error => error_result ("Error modifying element: " +:+ error)).

Definition closeBrowserTool (env : Env) : State E -> ToolResult * State E :=
  try_catch
    (closeBrowser env ;;
     ret {| content := [ Text "Browser closed successfully." ]; isError := false |})
    (fun error => error_result ("Error closing browser: " +:+ error)).

(** *** Runs of the server *)

(** One step of a run: a tool call arrives (with what the automation engine
    does during it), or something happens in the page. *)
Inductive Step :=
  | LaunchBrowser (args : option LaunchArgs) (env : Env)
  | InspectElement (env : Env)
  | GetElementInfo (env : Env)
  | ModifyElement (args : option ModifyArgs) (env : Env)
  | CloseBrowser (env : Env)
  | InPage (f : Tab E -> Tab E).

Definition exec (st : Step) (s : State E) : option ToolResult * State E :=
  match st with
  | LaunchBrowser args env => prod_map Some id (launchBrowser args env s)
  | InspectElement env => prod_map Some id (inspectElement env s)
  | GetElementInfo env => prod_map Some id (getElementInfo env s)
  | ModifyElement args env => prod_map Some id (modifyElement args env s)
  | CloseBrowser env => prod_map Some id (closeBrowserTool env s)
  | InPage f => (None, MkState (browser s) (f <$> page s) (elementInfo s))
  end.

(** The states the server can be in. *)
Inductive reachable : State E -> Prop :=
  | reach_start : reachable initial
  | reach_step s st : reachable s -> reachable (exec st s).2.

(** The cache is only ever filled while a browser is set. *)
Definition cache_needs_browser (s : State E) : Prop :=
  browser s = None -> elementInfo s = None.

(** A session is open: both [browser] and [page] are set. *)
Definition session_open (s : State E) : Prop :=
  is_Some (browser s) /\ is_Some (page s).

(** The slot [window.selectedElement] of the current page is empty. *)
Definition slot_empty (s : State E) : Prop :=
  forall t, page s = Some t -> window_selectedElement (tab_page t) = None.

(** The states reached while no Selection Record has ever been committed:
    the slot was empty after every step. *)
Inductive uncommitted : State E -> Prop :=
  | uncommitted_start : uncommitted initial
  | uncommitted_step s st :
      uncommitted s -> slot_empty (exec st s).2 -> uncommitted (exec st s).2.

(** A call of [get_element_info] succeeded: its result has no error flag. *)
Definition get_succeeded (st : Step) (s : State E) : Prop :=
  match st with
  | GetElementInfo env => isError (getElementInfo env s).1 = false
  | _ => False
  end.

(** The automation engine took the screenshot a [get_element_info] asked
    for. *)
Definition screenshot_taken (st : Step) : Prop :=
  match st with
  | GetElementInfo env => rejects env Screenshot = None
  | _ => True
  end.

(** A step that closes the session: [close_browser], or [launch_browser],
    which closes an open session first; [browser.close()] resolved. *)
Definition resets (st : Step) : Prop :=
  match st with
  | CloseBrowser env | LaunchBrowser _ env => rejects env BrowserClose = None
  | _ => False
  end.

(** The states in which no [get_element_info] has succeeded since the server
    started or since the last close or launch of the browser. *)
Inductive no_info_since_reset : State E -> Prop :=
  | since_start : no_info_since_reset initial
  | since_reset s st :
      reachable s -> resets st -> no_info_since_reset (exec st s).2
  | since_step s st :
      no_info_since_reset s -> screenshot_taken st -> ~ get_succeeded st s ->
      no_info_since_reset (exec st s).2.

End Driver.

End Host.

(** ** A small page to run the engines on *)

Module Example.

Definition renderer : Renderer :=
  {| getBoundingClientRect := fun _ _ =>
       {| top := 10; left := 20; width := 100; height := 30; right := 120 |};
     innerWidth := 1280;
     outerHTML := fun d k => "<" +:+ from_option Dom.tagName "" (Dom.lookup k d) +:+ ">";
     textContent := fun _ _ => "";
     getComputedStyle := fun _ _ => [("color", "black")];
     parseHTML := fun _ => [];
     stringify := fun l => Js.join ";" (map (fun pv => pv.1 +:+ ":" +:+ pv.2) l) |}.

(** [<body><div></div><span></span><span><b></b></span><button id=go>]:
    the keys are 0 for the body, then 1 to 5 in document order. *)
Definition document : Dom.Element :=
  Dom.Elem 0 "BODY" "" []
    [ Dom.Elem 1 "DIV" "" [] [];
      Dom.Elem 2 "SPAN" "" [] [];
      Dom.Elem 3 "SPAN" "" [] [ Dom.Elem 4 "B" "" [] [] ];
      Dom.Elem 5 "BUTTON" "go" [] [] ].

Definition page : Page :=
  {| doc := document; nextKey := 6; style := ∅; value := ∅; innerHTML := ∅;
     window_selectedElement := None; window_selectedElementMessage := None;
     windowSize := None; timers := [] |}.

(** The second span of [document], and the body. *)
Definition second_span : Dom.Element := Dom.Elem 3 "SPAN" "" [] [ Dom.Elem 4 "B" "" [] [] ].

(** An environment in which every call into the automation engine resolves
    and the navigation loads [page]. *)
Definition env : Host.Env :=
  {| Host.rejects := fun _ => None; Host.loaded := page; Host.screenshot := "iVBORw0KGgo=" |}.

(** A session of the toggle-button build: the browser is launched on
    [page] and the inspection script injected. *)
Definition launch : Host.Step (E := V1.Engine) :=
  Host.LaunchBrowser (Some {| Host.url := Some "http://localhost:3000/" |}) env.

Definition launched : Host.State V1.Engine :=
  (Host.exec (rd := renderer) V1.evaluate_script false launch Host.initial).2.

Definition inspecting : Host.State V1.Engine :=
  (Host.exec (rd := renderer) V1.evaluate_script false (Host.InspectElement env) launched).2.

(** A user session on the page: selection mode on, pointer over the second
    span (key 3), a click to lock it, a click inside it to open the dialog,
    a draft typed into the text area (key 10), and a click on the submit
    button (key 13).  The toggle button has key 14. *)
Definition annotate : list Event :=
  [ Click 14; Mouseover 3; Click 3; Click 4;
    Input 10 "  make this red "; Click 13 ].

Definition run {E : Type} (dispatch : Event -> Tab E -> Tab E)
    (evs : list Event) (t : Tab E) : Tab E :=
  foldl (fun t ev => dispatch ev t) t evs.

(** The page once the toggle-button script has run in it, and the closure
    the script left. *)
Definition injected : Tab V1.Engine := V1.evaluate_script (MkTab page []).

Definition engine : V1.Engine := (V1.inject page).1.

(** Clicks on the toggle button (14), the header of the device selector
    (16), the info panel (7) and the text area of the dialog (10). *)
Definition surface_targets : list nat := [14; 16; 7; 10].

(** The tab with the second span locked, and the click on its child. *)
Definition locked : Tab V1.Engine :=
  run (V1.dispatch (rd := renderer)) [Click 14; Mouseover 3; Click 3] injected.

Definition locked_engine : V1.Engine := default engine (head (closures locked)).

Definition opened : Tab V1.Engine := V1.dispatch (rd := renderer) (Click 4) locked.

Definition after_surface_clicks : V1.Engine * Page :=
  default (engine, (V1.inject page).2)
    (V1.surface_clicks_from (rd := renderer) surface_targets engine (V1.inject page).2).

Definition opened_engine : V1.Engine := default engine (head (closures opened)).

(** The dialog open on the second span with a draft typed in, and the tab
    after the click on the submit button (13). *)
Definition drafted : Tab V1.Engine :=
  V1.dispatch (rd := renderer) (Input 10 "  make this red ") opened.

Definition drafted_engine : V1.Engine := default engine (head (closures drafted)).

Definition committed : Tab V1.Engine := V1.dispatch (rd := renderer) (Click 13) drafted.

Definition committed_engine : V1.Engine := default engine (head (closures committed)).

(** The floating-icon script on the same page: the icon has key 6, the
    select-element button key 11.  With the selection mode on and the
    pointer over the second span, a click on it opens the dialog (key 22,
    text area 25, send button 28); the send button is then pressed with the
    text area still empty. *)
Definition floating : Tab V2.Engine := V2.evaluate_script (MkTab page []).

Definition selecting : Tab V2.Engine :=
  run (V2.dispatch (rd := renderer)) [Click 6; Click 11; Mouseover 3] floating.

Definition selected : Tab V2.Engine := V2.dispatch (rd := renderer) (Click 3) selecting.

Definition sent_blank : Tab V2.Engine := V2.dispatch (rd := renderer) (Click 28) selected.

Definition send_listener : V2.DialogListener :=
  {| V2.dl_node := 28; V2.dl_send := true; V2.dl_dialogBox := 22; V2.dl_target := 3;
     V2.dl_originalBackgroundColor := "" |}.

(** The page after [inspect_element] has been called twice, and three
    times. *)
Definition twice : Tab V1.Engine := V1.evaluate_script injected.

Definition thrice : Tab V1.Engine := V1.evaluate_script twice.

(** The session after the user has committed a Selection Record. *)
Definition annotated : Host.State V1.Engine :=
  (Host.exec (rd := renderer) V1.evaluate_script false
     (Host.InPage (run (V1.dispatch (rd := renderer)) annotate)) inspecting).2.

Definition recolour : option Host.ModifyArgs :=
  Some {| Host.css_arg := Some [("color", "red")]; Host.html_arg := None |}.

(** The session once [get_element_info] has read the record back. *)
Definition informed : Host.State V1.Engine :=
  (Host.exec (rd := renderer) V1.evaluate_script false (Host.GetElementInfo env) annotated).2.

(** What it cached. *)
Definition cached : Host.ElementInfo :=
  {| Host.selector := "span:nth-child(2)"; Host.html := "<SPAN>";
     Host.css := "color:black" |}.

(** An environment in which the navigation fails. *)
Definition offline : Host.Env :=
  {| Host.rejects := fun c => match c with
                              | Host.Goto => Some "net::ERR_CONNECTION_REFUSED"
                              | _ => None
                              end;
     Host.loaded := page; Host.screenshot := "" |}.

(** The floating-icon dialog with a message typed in, and the listener on
    its cancel button (key 27). *)
Definition typed : Tab V2.Engine :=
  V2.dispatch (rd := renderer) (Input 25 " looks good ") selected.

Definition cancel_listener : V2.DialogListener :=
  {| V2.dl_node := 27; V2.dl_send := false; V2.dl_dialogBox := 22; V2.dl_target := 3;
     V2.dl_originalBackgroundColor := "" |}.

End Example.

(** * Theorems *)

(** ** The host driver *)

Section HostFacts.
Context {rd : Renderer} {E : Type}.
Variable script : Tab E -> Tab E.
Variable reads_message : bool.

Import Host.

Local Abbreviation State := (Host.State E).
Local Abbreviation exec := (Host.exec script reads_message).
Local Abbreviation reachable := (Host.reachable script reads_message).
Local Abbreviation uncommitted := (Host.uncommitted script reads_message).
Local Abbreviation no_info_since_reset := (Host.no_info_since_reset script reads_message).

(** Unfolding a tool handler down to the case analysis it performs. *)
Ltac unfold_handler :=
  unfold exec, Host.exec, launchBrowser, inspectElement, getElementInfo, modifyElement,
    closeBrowserTool, closeBrowser, evaluate, try_catch, bind, get, put, ret,
    throw, await, prod_map in *.

Ltac crush_handler :=
  unfold_handler; simpl in *; try done;
  repeat (case_match; unfold_handler; simpl in *; simplify_eq; try done).

Lemma exec_cache_needs_browser st s :
  cache_needs_browser s -> cache_needs_browser (exec st s).2.
Proof.
  unfold cache_needs_browser. destruct s as [b p i], st; crush_handler; auto.
Qed.

Lemma reachable_cache_needs_browser s : reachable s -> cache_needs_browser s.
Proof.
  induction 1 as [|s st _ IH]; [done|]. by apply exec_cache_needs_browser.
Qed.

(** A step that closes the session leaves the cache empty. *)
Lemma resets_clears_cache st s :
  cache_needs_browser s -> resets st -> elementInfo (exec st s).2 = None.
Proof.
  unfold cache_needs_browser. intros Hs Hr.
  destruct s as [b p i], st; simpl in Hr; try done; crush_handler; auto.
Qed.

(** A step other than a successful [get_element_info] leaves an empty cache
    empty. *)
Lemma quiet_step_keeps_cache_empty st s :
  elementInfo s = None -> screenshot_taken st -> ~ get_succeeded reads_message st s ->
  elementInfo (exec st s).2 = None.
Proof.
  intros Hs Hshot Hget.
  destruct s as [b p i], st; simpl in Hs, Hshot; subst;
    unfold get_succeeded in Hget; crush_handler.
Qed.

Lemma no_info_cache_empty s : no_info_since_reset s -> elementInfo s = None.
Proof.
  induction 1 as [|s st Hr Hreset|s st _ IH Hshot Hget]; [done| |].
  - apply resets_clears_cache; [by apply reachable_cache_needs_browser|done].
  - by apply quiet_step_keeps_cache_empty.
Qed.

(** With a session open and an empty cache, [modifyElement] answers that no
    element is selected and changes nothing. *)
Lemma modifyElement_empty_cache (s : State) args env :
  session_open s -> elementInfo s = None ->
  modifyElement args env s = (no_element_selected, s).
Proof.
  intros [[b Hb] [t Ht]] Hi. destruct s as [b' p' i']; simpl in *; subst.
  reflexivity.
Qed.

(** Boolean forms of the two conditions on a state, to settle them by
    evaluation. *)
Lemma session_open_true (s : State) :
  match browser s, page s with Some _, Some _ => true | _, _ => false end = true ->
  session_open s.
Proof. destruct s as [[b|] [t|] i]; try discriminate. split; eauto. Qed.

Lemma slot_empty_true (s : State) :
  match page s ≫= (fun t => window_selectedElement (tab_page t)) with
  | None => true
  | Some _ => false
  end = true ->
  slot_empty s.
Proof.
  intros Hs t Ht. rewrite Ht in Hs. simpl in Hs.
  by destruct (window_selectedElement (tab_page t)).
Qed.

Lemma uncommitted_slot_empty s : uncommitted s -> slot_empty s.
Proof. destruct 1; [by intros t Ht|done]. Qed.

Lemma uncommitted_cache_empty s : uncommitted s -> elementInfo s = None.
Proof.
  induction 1 as [|s st Hs IH _]; [done|].
  apply uncommitted_slot_empty in Hs. unfold slot_empty in Hs.
  destruct s as [b p i]; simpl in *; subst.
  destruct st; crush_handler.
  all: match goal with Hw : window_selectedElement _ = Some _ |- _ =>
         rewrite (Hs _ eq_refl) in Hw; discriminate end.
Qed.

(** With no session open the answer is the other precondition error, and
    nothing changes either. *)
Lemma modifyElement_no_session (s : State) args env :
  ~ session_open s -> modifyElement args env s = (not_launched, s).
Proof.
  intros Hn. destruct s as [[b|] [t|] i]; try reflexivity.
  destruct Hn. split; eauto.
Qed.

(** C7 (mutation precondition).  In a session in which no Selection Record
    has been committed so far, [modify_element] returns the result
    "No element selected", whose error flag is set, and leaves the state of
    the server and of the page, the document included, as it was. *)
Theorem modify_before_any_commit (s : State) args env :
  uncommitted s -> session_open s ->
  (modifyElement args env s).1 = no_element_selected
  /\ isError (modifyElement args env s).1 = true
  /\ (modifyElement args env s).2 = s.
Proof.
  intros Hu Ho. rewrite modifyElement_empty_cache;
    [done|done|by apply uncommitted_cache_empty].
Qed.

(** C9.  When [launch_browser] is called without a url while a browser is
    open and [browser.close()] resolves, the session is closed first: the
    answer is "URL is required" and the three variables are null, so the
    state is not the one the call started in. *)
Theorem launch_without_url_closes_session (s : State) a env :
  is_Some (browser s) -> url a = None -> rejects env BrowserClose = None ->
  launchBrowser (Some a) env s = (error_result "URL is required", MkState None None None)
  /\ (launchBrowser (Some a) env s).2 <> s.
Proof.
  intros [b Hb] Hu Hc. destruct s as [b' p i], a as [u]; simpl in *; subst.
  unfold launchBrowser, closeBrowser, try_catch, bind, get, put, await; simpl.
  rewrite Hc; simpl. split; [reflexivity|discriminate].
Qed.


(** The selector is cached before the screenshot is taken: a call whose
    screenshot fails reports an error and has filled the cache all the
    same. *)
Lemma getElementInfo_caches_before_screenshot b (t : Tab E) i r env err :
  window_selectedElement (tab_page t) = Some r ->
  rejects env Evaluate = None -> rejects env Screenshot = Some err ->
  getElementInfo reads_message env (MkState (Some b) (Some t) i)
  = (error_result ("Error getting element info: " +:+ err),
     MkState (Some b) (Some t)
       (Some {| selector := rec_selector r; html := rec_html r;
                css := stringify (rec_css r) |})).
Proof.
  intros Hr He Hs. unfold getElementInfo, try_catch, bind, get, put, await; simpl.
  rewrite He; simpl. rewrite Hr; simpl. rewrite Hs. reflexivity.
Qed.

End HostFacts.

Lemma modify_before_any_commit_witness :
  Host.uncommitted (rd := Example.renderer) V1.evaluate_script false Example.inspecting
  /\ Host.session_open Example.inspecting
  /\ (Host.modifyElement (rd := Example.renderer) Example.recolour Example.env
        Example.inspecting).1 = Host.no_element_selected
  /\ Host.isError (Host.modifyElement (rd := Example.renderer) Example.recolour Example.env
                     Example.inspecting).1 = true
  /\ (Host.modifyElement (rd := Example.renderer) Example.recolour Example.env
        Example.inspecting).2 = Example.inspecting.
Proof.
  assert (Hu : Host.uncommitted (rd := Example.renderer) V1.evaluate_script false
                 Example.inspecting).
  { apply (Host.uncommitted_step _ _ Example.launched (Host.InspectElement Example.env)).
    - apply (Host.uncommitted_step _ _ Host.initial Example.launch).
      + apply Host.uncommitted_start.
      + apply slot_empty_true. vm_compute. reflexivity.
    - apply slot_empty_true. vm_compute. reflexivity. }
  assert (Ho : Host.session_open Example.inspecting).
  { apply session_open_true. vm_compute. reflexivity. }
  split; [exact Hu|]. split; [exact Ho|].
  exact (modify_before_any_commit V1.evaluate_script false Example.inspecting
           Example.recolour Example.env Hu Ho).
Defined.

Lemma launch_without_url_closes_session_witness :
  Host.launchBrowser (E := V1.Engine) (Some {| Host.url := None |}) Example.env
    Example.inspecting
  = (Host.error_result "URL is required", Host.MkState None None None)
  /\ (Host.launchBrowser (E := V1.Engine) (Some {| Host.url := None |}) Example.env
        Example.inspecting).2 <> Example.inspecting.
Proof.
  apply (launch_without_url_closes_session Example.inspecting {| Host.url := None |}
           Example.env).
  - vm_compute. eauto.
  - reflexivity.
  - reflexivity.
Defined.


(** ** Properties of nodes *)

Section PageFacts.

Lemma get_style_set_style k prop k' prop' v p :
  get_style k prop (set_style k' prop' v p)
  = if decide ((k', prop') = (k, prop)) then v else get_style k prop p.
Proof.
  unfold get_style, set_style. simpl. rewrite lookup_insert.
  by destruct (decide ((k', prop') = (k, prop))).
Qed.

Lemma get_style_set_style_eq k prop v p :
  get_style k prop (set_style k prop v p) = v.
Proof. rewrite get_style_set_style. by rewrite decide_True. Qed.

Lemma get_style_set_style_ne k prop k' prop' v p :
  (k', prop') <> (k, prop) ->
  get_style k prop (set_style k' prop' v p) = get_style k prop p.
Proof. intros Hne. rewrite get_style_set_style. by rewrite decide_False. Qed.

Lemma get_style_set_styles_ne k prop k' l p :
  k' <> k -> get_style k prop (set_styles k' l p) = get_style k prop p.
Proof.
  intros Hne. unfold set_styles. revert p.
  induction l as [|[pr v] l IH]; intros p; simpl; [done|].
  rewrite IH. apply get_style_set_style_ne. congruence.
Qed.

Lemma get_style_set_value k prop k' v p :
  get_style k prop (set_value k' v p) = get_style k prop p.
Proof. reflexivity. Qed.

Lemma get_style_set_innerHTML k prop k' html markup p :
  get_style k prop (set_innerHTML k' html markup p) = get_style k prop p.
Proof.
  unfold set_innerHTML. by destruct (Dom.instantiate_all (nextKey p) markup).
Qed.

Lemma slot_set_style k prop v p :
  window_selectedElement (set_style k prop v p) = window_selectedElement p.
Proof. reflexivity. Qed.

Lemma slot_set_styles k l p :
  window_selectedElement (set_styles k l p) = window_selectedElement p.
Proof.
  unfold set_styles. revert p. induction l as [|x l IH]; intros p; simpl; [done|].
  by rewrite IH.
Qed.

Lemma slot_set_innerHTML k html markup p :
  window_selectedElement (set_innerHTML k html markup p) = window_selectedElement p.
Proof.
  unfold set_innerHTML. by destruct (Dom.instantiate_all (nextKey p) markup).
Qed.

Lemma nextKey_set_styles k l p : nextKey (set_styles k l p) = nextKey p.
Proof.
  unfold set_styles. revert p. induction l as [|x l IH]; intros p; simpl; [done|].
  by rewrite IH.
Qed.

(** A node built by [addNode] takes the next free key, and the properties
    of older nodes are left alone. *)
Lemma instantiate_key n m : Dom.key (Dom.instantiate n m).1 = n.
Proof. destruct m as [t i c kids]. simpl. by case_match. Qed.

Lemma addNode_key m st html p : (addNode m st html p).1 = nextKey p.
Proof.
  unfold addNode. pose proof (instantiate_key (nextKey p) m) as Hk.
  by destruct (Dom.instantiate (nextKey p) m) as [el n].
Qed.

Lemma get_style_addNode k prop m st html p :
  k <> nextKey p ->
  get_style k prop (addNode m st html p).2 = get_style k prop p.
Proof.
  intros Hne. pose proof (addNode_key m st html p) as Hk. revert Hk.
  unfold addNode. destruct (Dom.instantiate (nextKey p) m) as [el n]. simpl.
  intros ->. destruct html; simpl;
    unfold appendToBody; simpl;
    change (get_style k prop (set_styles (nextKey p) st (with_nextKey n p))
            = get_style k prop p);
    by rewrite get_style_set_styles_ne.
Qed.

Lemma slot_addNode m st html p :
  window_selectedElement (addNode m st html p).2 = window_selectedElement p.
Proof.
  unfold addNode. destruct (Dom.instantiate (nextKey p) m) as [el n]. simpl.
  destruct html; simpl; by rewrite slot_set_styles.
Qed.

Lemma get_style_set_styles_own k prop st p :
  get_style k prop (set_styles k st p)
  = default (get_style k prop p) (assigned prop st).
Proof.
  unfold set_styles. revert p.
  induction st as [|[pr v] st IH]; intros p; simpl; [done|].
  rewrite IH. destruct (assigned prop st); simpl; [done|].
  rewrite get_style_set_style. repeat case_decide; simplify_eq; done.
Qed.

Lemma get_style_addNode_own prop m st html p :
  get_style (nextKey p) prop (addNode m st html p).2
  = default (get_style (nextKey p) prop p) (assigned prop st).
Proof.
  pose proof (instantiate_key (nextKey p) m) as Hk. unfold addNode.
  destruct (Dom.instantiate (nextKey p) m) as [el n]. simpl in *. rewrite Hk.
  destruct html; simpl; unfold appendToBody; simpl;
    change (get_style (nextKey p) prop (set_styles (nextKey p) st (with_nextKey n p))
            = default (get_style (nextKey p) prop p) (assigned prop st));
    by rewrite get_style_set_styles_own.
Qed.

(** Keys are handed out in increasing order. *)
Lemma instantiate_next : forall m n, n < (Dom.instantiate n m).2.
Proof.
  fix IH 1. intros [t i c kids] n. simpl.
  match goal with |- context [?f (S n) kids] => set (go := f) end.
  assert (Hgo : forall l k, k <= (go k l).2).
  { induction l as [|m l IHl]; intros k; simpl; [done|].
    specialize (IH m k). destruct (Dom.instantiate k m) as [e1 n1]. simpl in IH.
    specialize (IHl n1). destruct (go n1 l) as [es n2]. simpl in *. lia. }
  specialize (Hgo kids (S n)). destruct (go (S n) kids) as [ch n']. simpl in *. lia.
Qed.

Lemma nextKey_addNode m st html p :
  nextKey p < nextKey (addNode m st html p).2.
Proof.
  pose proof (instantiate_next m (nextKey p)) as Hn. unfold addNode.
  destruct (Dom.instantiate (nextKey p) m) as [el n]. simpl in *.
  destruct html; simpl; by rewrite nextKey_set_styles.
Qed.

End PageFacts.

(** The facts about one [addNode] of the script, read off its equation. *)
Ltac node_facts H Hk Hn Hs Ho Hw :=
  match type of H with
  | addNode ?m ?st ?html ?q = (?k, ?q') =>
      pose proof (addNode_key m st html q) as Hk;
      pose proof (nextKey_addNode m st html q) as Hn;
      pose proof (fun k prop => get_style_addNode k prop m st html q) as Hs;
      pose proof (fun prop => get_style_addNode_own prop m st html q) as Ho;
      pose proof (slot_addNode m st html q) as Hw;
      rewrite H in Hk, Hn, Hs, Ho, Hw; cbn [fst snd] in Hk, Hn, Hs, Ho, Hw
  end.

(** ** The toggle-button engine *)

Section V1Facts.
Context {rd : Renderer}.

Import V1.

(** *** Dispatch in a tab with one closure *)

(** The three listeners that sit on buttons. *)
Definition button_listener (h : Engine -> Page -> Engine * Page) : Prop :=
  h = on_apply_button \/ h = on_cancel_button \/ h = on_submit_button.

Lemma listeners_at_buttons n e : Forall button_listener (listeners_at n e).
Proof.
  unfold listeners_at, button_listener.
  repeat case_decide; simpl;
    repeat (apply Forall_cons_2 || apply Forall_nil_2); auto.
Qed.

(** A click runs nothing at all, or listeners on a button, or the document
    listener. *)
Lemma click_single target e p e' p' :
  click target (MkTab p [e]) = MkTab p' [e'] ->
  (e', p') = (e, p)
  \/ (exists hs, Forall button_listener hs /\ run_all hs e p = (e', p')
                 /\ exists n, n ∈ Dom.propagation_path target (doc p)
                              /\ hs = listeners_at n e)
  \/ (Dom.propagation_path target (doc p) <> [] /\ on_click target e p = (e', p')).
Proof.
  unfold click. cbn [tab_page closures].
  destruct (Dom.propagation_path target (doc p)) as [|k path] eqn:Hpath.
  - intros Heq. inversion Heq; subst. left; reflexivity.
  - destruct (find (has_listener [e]) (k :: path)) as [n|] eqn:Hfind.
    + cbn [run_each].
      destruct (run_all (listeners_at n e) e p) as [e1 p1] eqn:Hrun.
      intros Heq. inversion Heq; subst. right; left. exists (listeners_at n e).
      split; [apply listeners_at_buttons|]. split; [exact Hrun|].
      exists n. split; [|done]. apply find_some in Hfind as [Hin _].
      by apply list_elem_of_In.
    + cbn [run_each].
      destruct (on_click target e p) as [e1 p1] eqn:Hclick.
      intros Heq. inversion Heq; subst. right; right. by split.
Qed.

Lemma run_all_preserves (Q : Engine -> Page -> Prop) hs e p :
  Forall (fun h => forall e p, Q e p -> Q (h e p).1 (h e p).2) hs ->
  Q e p -> Q (run_all hs e p).1 (run_all hs e p).2.
Proof.
  unfold run_all. intros Hhs. revert e p.
  induction Hhs as [|h hs Hh _ IH]; intros e p HQ; simpl; [done|].
  specialize (Hh e p HQ). destruct (h e p) as [e1 p1]. by apply IH.
Qed.

(** *** What each function does to the dialog and to the slot *)

Lemma dialogOpen_hideDialog e0 e p : dialogBox (ui e0) = dialogBox (ui e) ->
  dialogOpen e0 (hideDialog e p) = false.
Proof.
  intros Hd. unfold dialogOpen, hideDialog. rewrite Hd.
  case_match; simpl; [rewrite get_style_set_value|];
    by rewrite get_style_set_style_eq.
Qed.

Lemma slot_hideDialog e p :
  window_selectedElement (hideDialog e p) = window_selectedElement p.
Proof. unfold hideDialog. by case_match. Qed.

Lemma slot_positionDialog el e p :
  window_selectedElement (positionDialog el e p) = window_selectedElement p.
Proof. unfold positionDialog. by case_match. Qed.

Lemma submit_nothing_selected e p :
  selectedElement e = None -> submitModificationRequest e p = p.
Proof. intros Hs. unfold submitModificationRequest. rewrite Hs. by case_match. Qed.

Lemma slot_resizeWindow w h p :
  window_selectedElement (resizeWindow w h p) = window_selectedElement p.
Proof. unfold resizeWindow. by repeat case_match. Qed.

Lemma display_resizeWindow k w h p :
  get_style k "display" (resizeWindow w h p) = get_style k "display" p.
Proof. unfold resizeWindow. by repeat case_match. Qed.

Lemma on_apply_button_spec e p :
  (on_apply_button e p).1 = e
  /\ window_selectedElement (on_apply_button e p).2 = window_selectedElement p
  /\ forall k, get_style k "display" (on_apply_button e p).2 = get_style k "display" p.
Proof.
  unfold on_apply_button.
  repeat case_match; simpl; repeat split; auto using slot_resizeWindow, display_resizeWindow.
Qed.

Lemma ui_updateHighlightBox el sel e p :
  ui (updateHighlightBox el sel e p).1 = ui e.
Proof.
  unfold updateHighlightBox. destruct (highlightBox e); [done|].
  by destruct (createHighlightBox p).
Qed.

Lemma selection_updateHighlightBox el sel e p :
  selection (updateHighlightBox el sel e p).1 = selection e
  /\ isSelectionModeActive (updateHighlightBox el sel e p).1 = isSelectionModeActive e.
Proof.
  unfold updateHighlightBox. destruct (highlightBox e); [done|].
  by destruct (createHighlightBox p).
Qed.

Lemma slot_updateHighlightBox el sel e p :
  window_selectedElement (updateHighlightBox el sel e p).2 = window_selectedElement p.
Proof.
  unfold updateHighlightBox. destruct (highlightBox e) as [b|].
  - destruct sel; simpl; by rewrite ?slot_set_styles.
  - unfold createHighlightBox.
    pose proof (slot_addNode (Dom.Tag "DIV" "mcp-inspector-highlight" [] [])
                  highlight_style None p) as Hs.
    destruct (addNode _ highlight_style None p) as [b p1]. simpl in *.
    destruct sel; simpl; by rewrite ?slot_set_styles.
Qed.

(** The highlight box never is the dialog, so showing it leaves the dialog
    as it is. *)
Lemma display_updateHighlightBox el sel e p :
  dialog_apart e p ->
  get_style (dialogBox (ui e)) "display" (updateHighlightBox el sel e p).2
  = get_style (dialogBox (ui e)) "display" p.
Proof.
  intros (_ & Hh & Hn). unfold updateHighlightBox.
  destruct (highlightBox e) as [b|].
  - assert (b <> dialogBox (ui e)) by congruence.
    destruct sel; cbn [fst snd]; by rewrite !get_style_set_styles_ne.
  - unfold createHighlightBox.
    pose proof (addNode_key (Dom.Tag "DIV" "mcp-inspector-highlight" [] [])
                  highlight_style None p) as Hk.
    pose proof (get_style_addNode (dialogBox (ui e)) "display"
                  (Dom.Tag "DIV" "mcp-inspector-highlight" [] [])
                  highlight_style None p) as Hs.
    destruct (addNode _ highlight_style None p) as [b p1]. simpl in *. subst b.
    assert (nextKey p <> dialogBox (ui e)) by lia.
    destruct sel; cbn [fst snd]; rewrite !get_style_set_styles_ne by done; apply Hs; lia.
Qed.

Lemma display_updateInfoPanel el sel e p :
  dialogBox (ui e) <> infoPanel (ui e) ->
  get_style (dialogBox (ui e)) "display" (updateInfoPanel el sel e p)
  = get_style (dialogBox (ui e)) "display" p.
Proof.
  intros Hne. unfold updateInfoPanel.
  rewrite get_style_set_style_ne by congruence.
  destruct sel; by rewrite get_style_set_innerHTML.
Qed.

Lemma slot_updateInfoPanel el sel e p :
  window_selectedElement (updateInfoPanel el sel e p) = window_selectedElement p.
Proof.
  unfold updateInfoPanel. rewrite slot_set_style.
  destruct sel; by rewrite slot_set_innerHTML.
Qed.

(** Switching the mode leaves the dialog hidden, nothing selected and the
    slot alone. *)
Lemma toggleSelectionMode_spec e p :
  let e' := (toggleSelectionMode e p).1 in
  let p' := (toggleSelectionMode e p).2 in
  ui e' = ui e
  /\ isSelectionModeActive e' = negb (isSelectionModeActive e)
  /\ selectedElement e' = None /\ isSelectionLocked e' = false
  /\ currentElement e' = (if isSelectionModeActive e then None else currentElement e)
  /\ highlightBox e' = highlightBox e
  /\ get_style (dialogBox (ui e)) "display" p' = "none"
  /\ window_selectedElement p' = window_selectedElement p
  /\ nextKey p' = nextKey p.
Proof.
  unfold toggleSelectionMode. destruct e as [u c s h l a]; simpl.
  destruct a; simpl; repeat split.
  - unfold hideDialog. case_match; simpl; [rewrite get_style_set_value|];
      by rewrite get_style_set_style_eq.
  - unfold hideDialog. case_match; by simpl; destruct h.
  - unfold hideDialog. case_match; by simpl; destruct h.
  - rewrite get_style_set_style_ne by congruence.
    unfold hideDialog. case_match; simpl; [rewrite get_style_set_value|];
      by rewrite get_style_set_style_eq.
  - unfold hideDialog. by case_match.
  - unfold hideDialog. by case_match.
Qed.

(** *** A closure that has nothing hovered *)

(** Nothing hovered, nothing selected, no lock, and the dialog hidden. *)
Definition unselected (e : Engine) (p : Page) : Prop :=
  selection e = (None, None, false) /\ dialogOpen e p = false.

Lemma dialogOpen_display e p :
  get_style (dialogBox (ui e)) "display" p = "none" -> dialogOpen e p = false.
Proof. unfold dialogOpen. by intros ->. Qed.

(** The document listener, run on a closure with nothing hovered, selects
    nothing, whatever is clicked. *)
Lemma on_click_unselected target e p :
  unselected e p ->
  unselected (on_click target e p).1 (on_click target e p).2
  /\ window_selectedElement (on_click target e p).2 = window_selectedElement p.
Proof.
  intros [Hsel Hd].
  assert (currentElement e = None /\ selectedElement e = None
          /\ isSelectionLocked e = false) as (Hc & Hs & Hl).
  { unfold selection in Hsel. by injection Hsel. }
  unfold on_click.
  case_match.
  { pose proof (toggleSelectionMode_spec e p) as Ht. simpl in Ht.
    destruct Ht as (Hu & _ & Hs' & Hl' & Hc' & _ & Hdisp & Hslot & _).
    split; [split|done].
    - unfold selection. rewrite Hs', Hl', Hc', Hc.
      by destruct (isSelectionModeActive e).
    - unfold dialogOpen. by rewrite Hu, Hdisp. }
  case_match; [done|].
  case_match.
  { simpl. split; [split; [done|by apply dialogOpen_hideDialog]|apply slot_hideDialog]. }
  case_match.
  { simpl. by rewrite submit_nothing_selected. }
  case_match; [done|]. case_match; [done|].
  rewrite Hs, Hl, Hc. done.
Qed.

Lemma button_listener_unselected h e p :
  button_listener h -> unselected e p ->
  unselected (h e p).1 (h e p).2
  /\ window_selectedElement (h e p).2 = window_selectedElement p.
Proof.
  intros [->|[->| ->]] [Hsel Hd].
  - destruct (on_apply_button_spec e p) as (He & Hs & Hdisp).
    rewrite He. split; [split; [done|]|done].
    unfold dialogOpen in *. by rewrite Hdisp.
  - simpl. split; [split; [done|by apply dialogOpen_hideDialog]|apply slot_hideDialog].
  - simpl. rewrite submit_nothing_selected; [done|].
    unfold selection in Hsel. by injection Hsel.
Qed.

Lemma click_unselected target e p e' p' :
  click target (MkTab p [e]) = MkTab p' [e'] ->
  unselected e p ->
  unselected e' p' /\ window_selectedElement p' = window_selectedElement p.
Proof.
  intros Hc Hu. apply click_single in Hc as [Heq|[(hs & Hhs & Hrun & _)|[_ Hclick]]].
  - by injection Heq as -> ->.
  - pose proof (run_all_preserves
      (fun e1 p1 => unselected e1 p1
                    /\ window_selectedElement p1 = window_selectedElement p) hs e p) as Hp.
    rewrite Hrun in Hp. apply Hp; [|done].
    eapply Forall_impl; [exact Hhs|]. intros h Hh e1 p1 [Hu1 Hs1].
    destruct (button_listener_unselected h e1 p1 Hh Hu1) as [? ?].
    split; [done|congruence].
  - pose proof (on_click_unselected target e p Hu) as Hp. by rewrite Hclick in Hp.
Qed.

(** *** How the dialog opens *)

Lemma display_hideDialog dg e p :
  dialogBox (ui e) = dg ->
  get_style dg "display" (hideDialog e p) = "none".
Proof.
  intros <-. unfold hideDialog. case_match; simpl; [rewrite get_style_set_value|];
    by rewrite get_style_set_style_eq.
Qed.

Lemma nextKey_hideDialog e p : nextKey (hideDialog e p) = nextKey p.
Proof. unfold hideDialog. by case_match. Qed.

(** Showing the highlight and then the panel leaves the dialog as it is. *)
Lemma display_highlight_then_panel el sel e p e1 p1 :
  dialog_apart e p ->
  updateHighlightBox el sel e p = (e1, p1) ->
  ui e1 = ui e
  /\ get_style (dialogBox (ui e)) "display" (updateInfoPanel el sel e1 p1)
     = get_style (dialogBox (ui e)) "display" p.
Proof.
  intros Ha Hu.
  pose proof (ui_updateHighlightBox el sel e p) as Hui.
  pose proof (display_updateHighlightBox el sel e p Ha) as Hd.
  rewrite Hu in Hui, Hd. simpl in Hui, Hd. split; [done|].
  rewrite <- Hui. rewrite display_updateInfoPanel; rewrite Hui; [done|apply Ha].
Qed.

Lemma display_submit e p :
  get_style (dialogBox (ui e)) "display" (submitModificationRequest e p) = "none"
  \/ submitModificationRequest e p = p.
Proof.
  unfold submitModificationRequest.
  repeat case_match; auto using display_hideDialog.
Qed.

(** Stepping over a highlight-and-panel update in the goal. *)
Ltac finish_explore Ha :=
  match goal with
  | |- context [updateHighlightBox ?el ?sel ?e0 ?p0] =>
      let Hu := fresh "Hu" in
      let Ha0 := fresh "Ha0" in
      let e2 := fresh "e2" in
      let p2 := fresh "p2" in
      assert (dialog_apart e0 p0) as Ha0
        by (destruct Ha as (? & ? & ?); repeat split; simpl;
            rewrite ?nextKey_hideDialog; done);
      destruct (updateHighlightBox el sel e0 p0) as [e2 p2] eqn:Hu;
      destruct (display_highlight_then_panel el sel e0 p0 e2 p2 Ha0 Hu) as [_ Hd];
      cbn [fst snd ui set_currentElement set_selectedElement set_isSelectionLocked] in Hd |- *;
      rewrite Hd
  end.

(** The document listener shows the dialog only in the branch taken when
    the selection is locked and the click lands inside the locked element. *)
Lemma on_click_opens target e p :
  dialog_apart e p ->
  dialogOpen e p = false ->
  get_style (dialogBox (ui e)) "display" (on_click target e p).2 = "block" ->
  (on_click target e p).1 = e
  /\ exists sel, state_of e p = Locked sel /\ Dom.contains (doc p) sel target = true.
Proof.
  intros Ha Hclosed.
  assert (Hno : forall q, get_style (dialogBox (ui e)) "display" q = "none" ->
                get_style (dialogBox (ui e)) "display" q = "block" -> False).
  { intros q -> [=]. }
  assert (Hsame : forall q, get_style (dialogBox (ui e)) "display" q
                            = get_style (dialogBox (ui e)) "display" p ->
                  get_style (dialogBox (ui e)) "display" q = "block" -> False).
  { intros q -> Hb. unfold dialogOpen in Hclosed. by rewrite Hb in Hclosed. }
  unfold on_click.
  case_match.
  { pose proof (toggleSelectionMode_spec e p) as Ht. simpl in Ht.
    destruct Ht as (_ & _ & _ & _ & _ & _ & Hdisp & _). by rewrite Hdisp. }
  case_match; [intros Hb; exfalso; by eapply Hsame; [|exact Hb]|].
  case_match; [simpl; by rewrite display_hideDialog|].
  case_match.
  { simpl. destruct (display_submit e p) as [-> | ->]; [done|].
    intros Hb; exfalso; by eapply Hsame; [|exact Hb]. }
  case_match; [intros Hb; exfalso; by eapply Hsame; [|exact Hb]|].
  case_match; [intros Hb; exfalso; by eapply Hsame; [|exact Hb]|].
  destruct (selectedElement e) as [sel|] eqn:Hsel;
    destruct (isSelectionLocked e) eqn:Hl; simpl;
    [destruct ((sel =? target)%nat || Dom.contains (doc p) sel target) eqn:Hin| | |].
  - intros _. split; [done|]. exists sel. split.
    + unfold state_of. rewrite Hl, Hsel, Hclosed.
      by destruct (isSelectionModeActive e).
    + apply orb_true_iff in Hin as [Heq%Nat.eqb_eq|Hin]; [|done].
      subst. unfold Dom.contains. by rewrite Nat.eqb_refl.
  - case_match.
    + finish_explore Ha. intros Hb; exfalso. eapply Hno; [|exact Hb]. by apply display_hideDialog.
    + simpl. intros Hb; exfalso. eapply Hno; [|exact Hb]. by apply display_hideDialog.
  - destruct (currentElement e) as [cur|].
    + finish_explore Ha. intros Hb; exfalso. by eapply Hsame; [|exact Hb].
    + intros Hb; exfalso; by eapply Hsame; [|exact Hb].
  - case_match.
    + finish_explore Ha. intros Hb; exfalso. eapply Hno; [|exact Hb]. by apply display_hideDialog.
    + simpl. intros Hb; exfalso. eapply Hno; [|exact Hb]. by apply display_hideDialog.
  - destruct (currentElement e) as [cur|].
    + finish_explore Ha. intros Hb; exfalso. by eapply Hsame; [|exact Hb].
    + intros Hb; exfalso; by eapply Hsame; [|exact Hb].
Qed.

(** *** What the injection leaves behind *)

Lemma removeExisting_frame p :
  nextKey (removeExisting p) = nextKey p
  /\ style (removeExisting p) = style p
  /\ window_selectedElement (removeExisting p) = window_selectedElement p.
Proof. unfold removeExisting. simpl. by repeat case_match. Qed.

(** The script leaves an idle closure, a hidden dialog that is a node of its
    own, and the slot [window.selectedElement] as it found it. *)
Lemma inject_spec p :
  idle (inject p).1
  /\ dialogOpen (inject p).1 (inject p).2 = false
  /\ dialog_apart (inject p).1 (inject p).2
  /\ window_selectedElement (inject p).2 = window_selectedElement p.
Proof.
  unfold inject.
  destruct (removeExisting_frame p) as (Hn0 & _ & Hw0).
  destruct (addNode _ overlay_style None (removeExisting p)) as [ov p1] eqn:H1.
  destruct (addNode _ infoPanel_style _ p1) as [ip p2] eqn:H2.
  destruct (addNode _ dialogBox_style None p2) as [dg p3] eqn:H3.
  destruct (addNode _ toggleButton_style _ p3) as [tg p4] eqn:H4.
  destruct (addNode _ deviceSelector_style None p4) as [ds p5] eqn:H5.
  node_facts H1 Hk1 Hn1 Hs1 Ho1 Hw1. node_facts H2 Hk2 Hn2 Hs2 Ho2 Hw2.
  node_facts H3 Hk3 Hn3 Hs3 Ho3 Hw3. node_facts H4 Hk4 Hn4 Hs4 Ho4 Hw4.
  node_facts H5 Hk5 Hn5 Hs5 Ho5 Hw5.
  subst. cbn [fst snd]. split; [done|]. split; [|split].
  - unfold dialogOpen. cbn [ui dialogBox].
    rewrite Hs5, Hs4 by lia. by rewrite Ho3.
  - unfold dialog_apart. cbn [ui dialogBox infoPanel highlightBox].
    split; [lia|]. split; [done|lia].
  - congruence.
Qed.

Lemma ui_on_click target e p : ui (on_click target e p).1 = ui e.
Proof.
  unfold on_click.
  repeat (case_match; simpl; try done);
    try apply toggleSelectionMode_spec;
    match goal with
    | H : updateHighlightBox ?el ?sel ?e0 ?p0 = _ |- _ =>
        pose proof (ui_updateHighlightBox el sel e0 p0) as Hui;
        rewrite H in Hui; exact Hui
    end.
Qed.

Lemma on_mouseover_spec target e p :
  dialog_apart e p ->
  ui (on_mouseover target e p).1 = ui e
  /\ get_style (dialogBox (ui e)) "display" (on_mouseover target e p).2
     = get_style (dialogBox (ui e)) "display" p.
Proof.
  intros Ha. unfold on_mouseover.
  case_match; [done|]. case_match; [|done].
  finish_explore Ha. split; [|done].
  pose proof (ui_updateHighlightBox target false
                (set_currentElement (Some target) e) p) as Hui.
  by rewrite Hu in Hui.
Qed.

Lemma button_listener_closed h e p :
  button_listener h -> dialogOpen e p = false ->
  (h e p).1 = e /\ dialogOpen e (h e p).2 = false.
Proof.
  unfold dialogOpen. intros [->|[->| ->]] Hd.
  - destruct (on_apply_button_spec e p) as (He & _ & Hdisp).
    split; [done|]. by rewrite Hdisp.
  - simpl. split; [done|]. by rewrite display_hideDialog.
  - simpl. split; [done|].
    destruct (display_submit e p) as [-> | ->]; done.
Qed.

Lemma display_on_timeout k p :
  get_style k "display" (on_timeout p) = get_style k "display" p.
Proof.
  unfold on_timeout. destruct (timers p) as [|[| |] ts]; simpl; try done.
  - unfold removeChildOfBody. by case_match.
  - by rewrite get_style_set_style_ne.
Qed.

Lemma on_dropdown_change_spec k e p :
  (on_dropdown_change k e p).1 = e
  /\ forall dg, get_style dg "display" (on_dropdown_change k e p).2
                = get_style dg "display" p.
Proof.
  unfold on_dropdown_change.
  repeat case_match; simpl; split; auto using display_resizeWindow.
Qed.

(** Any event that takes a closure whose dialog is hidden to one whose
    dialog is shown is a click inside the element of a locked selection. *)
Lemma dispatch_opens ev e p e' p' :
  dialog_apart e p ->
  dispatch ev (MkTab p [e]) = MkTab p' [e'] ->
  dialogOpen e p = false -> dialogOpen e' p' = true ->
  exists target sel, ev = Click target /\ e' = e /\ state_of e p = Locked sel
                     /\ Dom.contains (doc p) sel target = true.
Proof.
  intros Ha Hd Hclosed Hopen. destruct ev as [target|target|target text|target v|]; simpl in Hd.
  - (* the pointer enters a node *)
    unfold mouseover in Hd. cbn [tab_page closures run_each] in Hd.
    destruct (on_mouseover_spec target e p Ha) as [Hui Hdisp].
    destruct (Dom.propagation_path target (doc p)).
    + inversion Hd; subst. congruence.
    + destruct (on_mouseover target e p) as [e1 p1]. inversion Hd; subst.
      unfold dialogOpen in *. simpl in *. rewrite Hui, Hdisp in Hopen. congruence.
  - (* a click *)
    apply click_single in Hd as [Heq|[(hs & Hhs & Hrun & _)|[_ Hclick]]].
    + inversion Heq; subst. congruence.
    + pose proof (run_all_preserves
        (fun e1 p1 => e1 = e /\ dialogOpen e p1 = false) hs e p) as Hp.
      rewrite Hrun in Hp. simpl in Hp. destruct Hp as [-> Hp]; [|done|congruence].
      eapply Forall_impl; [exact Hhs|]. intros h Hh e1 p1 [-> Hc1].
      by apply button_listener_closed.
    + destruct (on_click_opens target e p Ha Hclosed) as (He & sel & Hst & Hin).
      { pose proof (ui_on_click target e p) as Hui. rewrite Hclick in *. simpl in *.
        unfold dialogOpen in Hopen. rewrite Hui in Hopen.
        by apply String.eqb_eq. }
      rewrite Hclick in He. simpl in He. by exists target, sel.
  - (* the user edits a form control *)
    inversion Hd; subst. unfold dialogOpen in *.
    rewrite get_style_set_value in Hopen. congruence.
  - (* the user picks an option *)
    unfold change in Hd. cbn [tab_page closures run_each] in Hd.
    case_decide.
    + destruct (on_dropdown_change_spec target e (set_value target v p)) as [He Hdisp].
      destruct (on_dropdown_change target e (set_value target v p)) as [e1 p1].
      inversion Hd; subst. simpl in *. subst. unfold dialogOpen in *.
      rewrite Hdisp, get_style_set_value in Hopen. congruence.
    + inversion Hd; subst. unfold dialogOpen in *.
      rewrite get_style_set_value in Hopen. congruence.
  - (* a timer fires *)
    inversion Hd; subst. unfold dialogOpen in *.
    rewrite display_on_timeout in Hopen. congruence.
Qed.

Lemma surface_clicks_from_sound targets e p e' p' :
  surface_clicks_from targets e p = Some (e', p') ->
  surface_clicks (e, p) (e', p').
Proof.
  assert (Hgen : forall ep0, surface_clicks ep0 (e, p) ->
            surface_clicks_from targets e p = Some (e', p') ->
            surface_clicks ep0 (e', p')).
  { revert e p. induction targets as [|target rest IH]; intros e p ep0 H0; simpl.
    - by intros [= <- <-].
    - destruct (on_surface e p target) eqn:Hs; [|done].
      destruct (click target (MkTab p [e])) as [p1 [|e1 [|]]] eqn:Hc; try done.
      apply IH. by eapply surface_clicks_step. }
  apply Hgen. constructor.
Qed.

(** C1 (state-machine safety).  From an idle closure with the dialog hidden,
    clicks on the engine's own surfaces (info panel, dialog, toggle button,
    device selector) never change what is hovered, selected or locked, never
    write the slot and never lead to [DialogOpen]; the mode flag alone
    follows the toggle button.  And whatever the event, a closure whose
    dialog is hidden gets to [DialogOpen sel] only from [Locked sel], by a
    click whose target the locked element contains. *)
Theorem state_machine_safety :
  (forall e p e' p',
     idle e -> dialogOpen e p = false ->
     surface_clicks (e, p) (e', p') ->
     selection e' = selection e
     /\ window_selectedElement p' = window_selectedElement p
     /\ forall sel, state_of e' p' <> DialogOpen sel)
  /\ (forall ev e p e' p' sel,
        dialog_apart e p -> dialogOpen e p = false ->
        dispatch ev (MkTab p [e]) = MkTab p' [e'] ->
        state_of e' p' = DialogOpen sel ->
        exists target, ev = Click target /\ state_of e p = Locked sel
                       /\ Dom.contains (doc p) sel target = true).
Proof.
  split.
  - intros e p e' p' [_ Hsel] Hclosed Hrun.
    assert (unselected e' p' /\ window_selectedElement p' = window_selectedElement p)
      as [[Hs Hd] Hw].
    { remember (e, p) as ep eqn:Hep. remember (e', p') as ep' eqn:Hep'.
      revert e' p' Hep'.
      induction Hrun as [ep|ep e1 p1 target e2 p2 _ IH _ Hclick];
        intros e' p' Hep'; subst.
      - by injection Hep' as <- <-.
      - injection Hep' as <- <-.
        destruct (IH eq_refl e1 p1 eq_refl) as [Hu1 Hw1].
        destruct (click_unselected target e1 p1 e2 p2 Hclick Hu1) as [Hu2 Hw2].
        split; [done|congruence]. }
    split; [congruence|]. split; [done|].
    intros sel. unfold state_of. rewrite Hd.
    by repeat case_match.
  - intros ev e p e' p' sel Ha Hclosed Hd Hst.
    assert (dialogOpen e' p' = true /\ selectedElement e' = Some sel) as [Hopen Hsel].
    { unfold state_of in Hst. repeat case_match; simplify_eq; done. }
    destruct (dispatch_opens ev e p e' p' Ha Hd Hclosed Hopen)
      as (target & sel0 & -> & -> & Hst0 & Hin).
    exists target. split; [done|].
    assert (selectedElement e = Some sel0) as Hsel0.
    { unfold state_of in Hst0. repeat case_match; simplify_eq; done. }
    by simplify_eq.
Qed.

End V1Facts.

Lemma state_machine_safety_witness :
  (V1.selection Example.after_surface_clicks.1 = V1.selection Example.engine
   /\ window_selectedElement Example.after_surface_clicks.2
      = window_selectedElement (V1.inject Example.page).2
   /\ forall sel, V1.state_of Example.after_surface_clicks.1 Example.after_surface_clicks.2
                  <> V1.DialogOpen sel)
  /\ (exists target, Click 4 = Click target
                     /\ V1.state_of Example.locked_engine (tab_page Example.locked)
                        = V1.Locked 3
                     /\ Dom.contains (doc (tab_page Example.locked)) 3 target = true).
Proof.
  destruct (state_machine_safety (rd := Example.renderer)) as [Hrun Hstep].
  split.
  - apply (Hrun Example.engine (V1.inject Example.page).2).
    + apply inject_spec.
    + apply inject_spec.
    + apply (surface_clicks_from_sound Example.surface_targets).
      vm_compute. reflexivity.
  - apply (Hstep (Click 4) Example.locked_engine (tab_page Example.locked)
             Example.opened_engine (tab_page Example.opened) 3).
    + repeat split; vm_compute; (lia || discriminate).
    + vm_compute. reflexivity.
    + vm_compute. reflexivity.
    + vm_compute. reflexivity.
Defined.

(** ** Submitting the dialog *)

Section V1Submit.
Context {rd : Renderer}.

Import V1.

Lemma truthy_ne s : s <> "" -> Js.truthy s = true.
Proof.
  intros Hs. unfold Js.truthy. destruct (String.eqb s "") eqn:He; [|done].
  by apply String.eqb_eq in He.
Qed.

(** With a draft that is not blank, the record is written and the dialog
    hidden. *)
Lemma submit_writes e p sel ta :
  selectedElement e = Some sel ->
  Dom.getElementById "mcp-modification-request" (doc p) = Some ta ->
  Js.trim (get_value ta p) <> "" ->
  window_selectedElement (submitModificationRequest e p)
  = Some {| rec_element := Some sel;
            rec_selector := getSelector (doc p) sel;
            rec_html := outerHTML (doc p) sel;
            rec_css := getComputedStyle (doc p) sel;
            rec_modificationRequest := Some (Js.trim (get_value ta p)) |}
  /\ get_style (dialogBox (ui e)) "display" (submitModificationRequest e p) = "none".
Proof.
  intros Hsel Hta Hreq. unfold submitModificationRequest.
  rewrite Hta, Hsel, (truthy_ne _ Hreq). split.
  - by rewrite slot_hideDialog, slot_set_innerHTML.
  - by apply display_hideDialog.
Qed.

(** With a blank draft, or no text area, or nothing selected, nothing
    happens at all. *)
Lemma submit_blank e p :
  (forall ta, Dom.getElementById "mcp-modification-request" (doc p) = Some ta ->
              Js.trim (get_value ta p) = "") ->
  submitModificationRequest e p = p.
Proof.
  intros Hblank. unfold submitModificationRequest.
  destruct (Dom.getElementById "mcp-modification-request" (doc p)) as [ta|]; [|done].
  destruct (selectedElement e); [|done]. by rewrite (Hblank ta eq_refl).
Qed.

(** The slot after a submit is the old one or a record for the selected
    element whose message is not empty. *)
Lemma slot_submit e p :
  window_selectedElement (submitModificationRequest e p) = window_selectedElement p
  \/ exists sel r, selectedElement e = Some sel
       /\ window_selectedElement (submitModificationRequest e p) = Some r
       /\ rec_element r = Some sel
       /\ rec_selector r = getSelector (doc p) sel
       /\ exists m, rec_modificationRequest r = Some m /\ m <> "".
Proof.
  unfold submitModificationRequest.
  destruct (Dom.getElementById "mcp-modification-request" (doc p)) as [ta|]; [|by left].
  destruct (selectedElement e) as [sel|]; [|by left].
  destruct (Js.truthy (Js.trim (get_value ta p))) eqn:Ht; [|by left].
  right. eexists sel, _. split; [done|].
  rewrite slot_hideDialog, slot_set_innerHTML. simpl. repeat split.
  eexists. split; [done|]. intros Hm. rewrite Hm in Ht. done.
Qed.

(** Every listener but the two that submit leaves the slot alone. *)
Lemma slot_on_click target e p :
  String.eqb (id_of target p) "mcp-submit-button" = false ->
  window_selectedElement (on_click target e p).2 = window_selectedElement p.
Proof.
  intros Hid. unfold on_click. rewrite Hid.
  repeat (case_match; simpl; try done);
    rewrite ?slot_hideDialog; try done;
    try (by apply toggleSelectionMode_spec);
    repeat match goal with
    | H : updateHighlightBox ?el ?sel ?e0 ?p0 = _ |- _ =>
        pose proof (slot_updateHighlightBox el sel e0 p0) as Hw;
        rewrite H in Hw; simpl in Hw; clear H
    end;
    rewrite ?slot_updateInfoPanel, ?slot_positionDialog; try done;
    try (rewrite Hw; by rewrite ?slot_hideDialog).
Qed.

Lemma slot_on_click_cases target e p :
  window_selectedElement (on_click target e p).2 = window_selectedElement p
  \/ (id_of target p = "mcp-submit-button"
      /\ (on_click target e p).2 = submitModificationRequest e p).
Proof.
  destruct (String.eqb (id_of target p) "mcp-submit-button") eqn:Hid;
    [|left; by apply slot_on_click].
  apply String.eqb_eq in Hid. unfold on_click. rewrite Hid.
  case_match; [left; by apply toggleSelectionMode_spec|].
  case_match; [by left|]. simpl. by right.
Qed.

Lemma slot_on_mouseover target e p :
  window_selectedElement (on_mouseover target e p).2 = window_selectedElement p.
Proof.
  unfold on_mouseover. case_match; [done|]. case_match; [|done].
  pose proof (slot_updateHighlightBox target false
                (set_currentElement (Some target) e) p) as Hw.
  destruct (updateHighlightBox target false (set_currentElement (Some target) e) p)
    as [e1 p1]. cbn [fst snd] in *. by rewrite slot_updateInfoPanel.
Qed.

Lemma slot_on_timeout p :
  window_selectedElement (on_timeout p) = window_selectedElement p.
Proof.
  unfold on_timeout. destruct (timers p) as [|[| |] ts]; simpl; try done.
  unfold removeChildOfBody. by case_match.
Qed.

Lemma slot_submit_cases e p q :
  window_selectedElement q = window_selectedElement p ->
  window_selectedElement (submitModificationRequest e q) = window_selectedElement p
  \/ exists r, window_selectedElement (submitModificationRequest e q) = Some r
                /\ submitted e r.
Proof.
  intros Hq. destruct (slot_submit e q) as [Hs|(sel & r & Hsel & Hr & Hel & _ & m & Hm & Hne)].
  - left. congruence.
  - right. exists r. split; [done|]. by exists sel, m.
Qed.

(** In a tab with one closure, an event that changes the slot is a click
    that submits the dialog, and what it leaves in the slot is a record
    written by the submit. *)
Lemma dispatch_writes_slot ev e p e' p' :
  dispatch ev (MkTab p [e]) = MkTab p' [e'] ->
  window_selectedElement p' <> window_selectedElement p ->
  exists target r, ev = Click target /\ submit_click e p target
                   /\ window_selectedElement p' = Some r /\ submitted e r.
Proof.
  intros Hd Hchanged. destruct ev as [target|target|target text|target v|]; simpl in Hd.
  - unfold mouseover in Hd. cbn [tab_page closures run_each] in Hd.
    pose proof (slot_on_mouseover target e p) as Hw.
    destruct (Dom.propagation_path target (doc p)); [inversion Hd; by subst|].
    destruct (on_mouseover target e p) as [e1 p1]. inversion Hd; subst. done.
  - apply click_single in Hd as [Heq|[(hs & _ & Hrun & n & Hn & ->)|[_ Hclick]]].
    + inversion Heq; by subst.
    + assert (window_selectedElement p' = window_selectedElement p
              \/ (submitNode (ui e) = Some n
                  /\ exists r, window_selectedElement p' = Some r /\ submitted e r))
        as [Hsame|[Hsub (r & Hr & Hsubm)]]; [|done|].
      { unfold listeners_at, run_all in Hrun.
        destruct (on_apply_button_spec e p) as (Hae & Haw & _).
        destruct (on_apply_button e p) as [ea pa] eqn:Hap. simpl in Hae, Haw. subst ea.
        repeat case_decide; simpl in Hrun; rewrite ?Hap in Hrun;
          unfold on_submit_button, on_cancel_button in Hrun; simpl in Hrun;
          simplify_eq; rewrite ?slot_hideDialog; try (by left);
          match goal with
          | |- context [submitModificationRequest ?e0 ?q] =>
              destruct (slot_submit_cases e0 p q) as [Hs|Hs];
                [by rewrite ?slot_hideDialog|by left|by right]
          end. }
      exists target, r. split; [done|]. split; [|done]. left. by exists n.
    + destruct (slot_on_click_cases target e p) as [Hs|[Hid Hs]];
        rewrite Hclick in Hs; simpl in Hs; [done|].
      destruct (slot_submit_cases e p p eq_refl) as [Hsame|(r & Hr & Hsubm)];
        rewrite <- Hs in *; [done|].
      exists target, r. split; [done|]. split; [by right|done].
  - inversion Hd; by subst.
  - unfold change in Hd. cbn [tab_page closures run_each] in Hd. case_decide.
    + destruct (on_dropdown_change target e (set_value target v p)) as [e1 p1] eqn:Hdd.
      inversion Hd; subst. exfalso. apply Hchanged.
      unfold on_dropdown_change in Hdd.
      repeat case_match; simplify_eq; by rewrite ?slot_resizeWindow.
    + inversion Hd; by subst.
  - inversion Hd; subst. by rewrite slot_on_timeout in Hchanged.
Qed.

End V1Submit.

(** ** The floating-icon engine *)

Section V2Facts.
Context {rd : Renderer}.

Import V2.

Lemma key_transform f e : Dom.key (Dom.transform f e) = Dom.key e.
Proof. by destruct e. Qed.

(** Once removed, a node is no longer a child of the body. *)
Lemma isChildOfRoot_remove k d : Dom.isChildOfRoot k (Dom.remove k d) = false.
Proof.
  destruct d as [k0 t i c ch]. unfold Dom.isChildOfRoot, Dom.remove. simpl.
  induction ch as [|x ch IH]; simpl; [done|].
  rewrite filter_cons. case_decide as Hx; simpl; [|done].
  rewrite key_transform in Hx. rewrite key_transform.
  apply Nat.eqb_neq in Hx. by rewrite Hx.
Qed.

Lemma removeChildOfBody_spec k p p' :
  removeChildOfBody k p = Some p' ->
  p' = with_doc (Dom.remove k (doc p)) p.
Proof. unfold removeChildOfBody. case_match; by intros [= <-]. Qed.

(** The send listener never touches [window.selectedElement]. *)
Lemma slot_on_send l p :
  window_selectedElement (on_send l p) = window_selectedElement p.
Proof.
  unfold on_send. case_match; [|done].
  set (q := if Js.truthy _ then _ else p).
  assert (window_selectedElement q = window_selectedElement p) as Hq.
  { subst q. case_match; [|done].
    pose proof (slot_addNode (Dom.Tag "DIV" "" [] []) notification_style
                  (Some "Message sent!") (with_selectedElementMessage
                     (Some (Js.trim (get_value n p))) p)) as Hw.
    destruct (addNode _ notification_style _ _) as [k q1]. simpl in *. done. }
  destruct (removeChildOfBody (dl_dialogBox l) q) as [q'|] eqn:Hr; [|done].
  apply removeChildOfBody_spec in Hr as ->. done.
Qed.

Lemma slot_on_cancel l p :
  window_selectedElement (on_cancel l p) = window_selectedElement p.
Proof.
  unfold on_cancel.
  destruct (removeChildOfBody (dl_dialogBox l) p) as [q'|] eqn:Hr; [|done].
  apply removeChildOfBody_spec in Hr as ->. done.
Qed.

(** Sending a blank draft stores no message, and removes the dialog all
    the same. *)
Lemma on_send_blank l p messageInput :
  Dom.getElementById "mcp-message-input" (doc p) = Some messageInput ->
  Js.trim (get_value messageInput p) = "" ->
  Dom.isChildOfRoot (dl_dialogBox l) (doc p) = true ->
  window_selectedElementMessage (on_send l p) = window_selectedElementMessage p
  /\ doc (on_send l p) = Dom.remove (dl_dialogBox l) (doc p)
  /\ Dom.isChildOfRoot (dl_dialogBox l) (doc (on_send l p)) = false.
Proof.
  intros Hmi Hblank Hchild. unfold on_send. rewrite Hmi, Hblank. simpl.
  unfold removeChildOfBody. rewrite Hchild. simpl.
  split; [done|]. split; [done|]. apply isChildOfRoot_remove.
Qed.

Lemma slot_restoreIcon e p :
  window_selectedElement (restoreIcon e p) = window_selectedElement p.
Proof. unfold restoreIcon. by rewrite slot_set_innerHTML. Qed.

Lemma slot_removeHighlight p p' :
  removeHighlight p = Some p' -> window_selectedElement p' = window_selectedElement p.
Proof.
  unfold removeHighlight. case_match; [|by intros [= <-]].
  intros Hr. by apply removeChildOfBody_spec in Hr as ->.
Qed.

(** In selection mode, a click away from the engine's surfaces writes the
    record for its target at once, before any dialog is shown, and leaves
    the mode. *)
Lemma on_capture_click_selects target e p :
  isSelectionModeActive e = true ->
  Dom.contains (doc p) (floatingIcon (ui e)) target
  || Dom.contains (doc p) (toolbar (ui e)) target
  || Dom.contains (doc p) (resolutionPicker (ui e)) target = false ->
  window_selectedElement (on_capture_click target e p).1.2
  = Some {| rec_element := None;
            rec_selector := getUniqueSelector (doc p) target;
            rec_html := outerHTML (doc p) target;
            rec_css := getComputedStyle (doc p) target;
            rec_modificationRequest := None |}
  /\ isSelectionModeActive (on_capture_click target e p).1.1 = false.
Proof.
  intros Ha Hs. unfold on_capture_click. rewrite Ha, Hs. cbn [negb].
  match goal with |- context [removeHighlight ?q] =>
    destruct (removeHighlight q) as [q'|] eqn:Hr end.
  - apply slot_removeHighlight in Hr. rewrite slot_restoreIcon in Hr. simpl in Hr.
    match goal with |- context [addNode ?m ?st ?h ?q] =>
      pose proof (slot_addNode m st h q) as Hw;
      destruct (addNode m st h q) as [dg q1] end.
    cbn [fst snd] in *. split; [|done]. simpl. by rewrite Hw.
  - cbn [fst snd]. split; [|done]. by rewrite slot_restoreIcon.
Qed.

End V2Facts.

(** ** The claims on submitting and on the slot *)

Section SubmitClaims.
Context {rd : Renderer}.

(** C3, as the code has it.  In [DialogOpen sel], pressing submit with a
    draft that is not blank writes the Selection Record (element, selector,
    markup, computed style and the trimmed draft) into
    [window.selectedElement] and hides the dialog; the variables of the
    closure are untouched, so the lock and the selected element stay and the
    state is [Locked sel], not [Idle]. *)
Theorem submit_commits_and_stays_locked e p sel ta :
  V1.state_of e p = V1.DialogOpen sel ->
  Dom.getElementById "mcp-modification-request" (doc p) = Some ta ->
  Js.trim (get_value ta p) <> "" ->
  (V1.on_submit_button e p).1 = e
  /\ window_selectedElement (V1.on_submit_button e p).2
     = Some {| rec_element := Some sel;
               rec_selector := V1.getSelector (doc p) sel;
               rec_html := outerHTML (doc p) sel;
               rec_css := getComputedStyle (doc p) sel;
               rec_modificationRequest := Some (Js.trim (get_value ta p)) |}
  /\ V1.state_of e (V1.on_submit_button e p).2 = V1.Locked sel.
Proof.
  intros Hst Hta Hreq.
  assert (V1.isSelectionModeActive e = true /\ V1.isSelectionLocked e = true
          /\ V1.selectedElement e = Some sel) as (Ha & Hl & Hsel).
  { unfold V1.state_of in Hst. repeat case_match; simplify_eq; try done.
    by destruct (V1.isSelectionModeActive e). }
  destruct (submit_writes e p sel ta Hsel Hta Hreq) as [Hw Hd].
  unfold V1.on_submit_button. simpl. split; [done|]. split; [done|].
  unfold V1.state_of, V1.dialogOpen. by rewrite Ha, Hl, Hsel, Hd.
Qed.

(** C4, as the code has it.  A blank draft writes nothing into either
    global.  In the toggle-button engine the submit listener then changes
    nothing at all, so the dialog stays open in the same state; in the
    floating-icon engine the send listener removes the dialog from the
    document all the same. *)
Theorem blank_submit :
  (forall e p,
     (forall ta, Dom.getElementById "mcp-modification-request" (doc p) = Some ta ->
                 Js.trim (get_value ta p) = "") ->
     V1.on_submit_button e p = (e, p))
  /\ (forall l p messageInput,
        Dom.getElementById "mcp-message-input" (doc p) = Some messageInput ->
        Js.trim (get_value messageInput p) = "" ->
        Dom.isChildOfRoot (V2.dl_dialogBox l) (doc p) = true ->
        window_selectedElement (V2.on_send l p) = window_selectedElement p
        /\ window_selectedElementMessage (V2.on_send l p)
           = window_selectedElementMessage p
        /\ Dom.isChildOfRoot (V2.dl_dialogBox l) (doc (V2.on_send l p)) = false).
Proof.
  split.
  - intros e p Hblank. unfold V1.on_submit_button. by rewrite submit_blank.
  - intros l p mi Hmi Hblank Hchild.
    destruct (on_send_blank l p mi Hmi Hblank Hchild) as (Hm & _ & Hgone).
    split; [apply slot_on_send|done].
Qed.

(** C5, as the code has it.  In the toggle-button engine an event that
    changes [window.selectedElement] is a click that submits the dialog, and
    a submit replaces whatever the slot held by a fresh record.  In the
    floating-icon engine it is the selecting click that writes the record,
    before the dialog exists, and neither button of the dialog writes it. *)
Theorem slot_writers :
  (forall ev e p e' p',
     V1.dispatch ev (MkTab p [e]) = MkTab p' [e'] ->
     window_selectedElement p' <> window_selectedElement p ->
     exists target r, ev = Click target /\ V1.submit_click e p target
                      /\ window_selectedElement p' = Some r /\ V1.submitted e r)
  /\ (forall e p old sel ta,
        V1.selectedElement e = Some sel ->
        Dom.getElementById "mcp-modification-request" (doc p) = Some ta ->
        Js.trim (get_value ta p) <> "" ->
        window_selectedElement
          (V1.submitModificationRequest e (with_selectedElement old p))
        = Some {| rec_element := Some sel;
                  rec_selector := V1.getSelector (doc p) sel;
                  rec_html := outerHTML (doc p) sel;
                  rec_css := getComputedStyle (doc p) sel;
                  rec_modificationRequest := Some (Js.trim (get_value ta p)) |})
  /\ (forall target e p,
        V2.isSelectionModeActive e = true ->
        Dom.contains (doc p) (V2.floatingIcon (V2.ui e)) target
        || Dom.contains (doc p) (V2.toolbar (V2.ui e)) target
        || Dom.contains (doc p) (V2.resolutionPicker (V2.ui e)) target = false ->
        window_selectedElement (V2.on_capture_click target e p).1.2
        = Some {| rec_element := None;
                  rec_selector := V2.getUniqueSelector (doc p) target;
                  rec_html := outerHTML (doc p) target;
                  rec_css := getComputedStyle (doc p) target;
                  rec_modificationRequest := None |})
  /\ (forall l p,
        window_selectedElement (V2.on_send l p) = window_selectedElement p
        /\ window_selectedElement (V2.on_cancel l p) = window_selectedElement p).
Proof.
  split; [exact dispatch_writes_slot|]. split; [|split].
  - intros e p old sel ta Hsel Hta Hreq.
    by destruct (submit_writes e (with_selectedElement old p) sel ta Hsel Hta Hreq).
  - intros target e p Ha Hs. by apply on_capture_click_selects.
  - intros l p. split; [apply slot_on_send|apply slot_on_cancel].
Qed.

End SubmitClaims.

Lemma submit_commits_and_stays_locked_witness :
  V1.state_of Example.drafted_engine (tab_page Example.drafted) = V1.DialogOpen 3
  /\ (V1.on_submit_button (rd := Example.renderer) Example.drafted_engine
        (tab_page Example.drafted)).1 = Example.drafted_engine
  /\ window_selectedElement
       (V1.on_submit_button (rd := Example.renderer) Example.drafted_engine
          (tab_page Example.drafted)).2
     = Some {| rec_element := Some 3;
               rec_selector := V1.getSelector (doc (tab_page Example.drafted)) 3;
               rec_html := outerHTML (Renderer := Example.renderer)
                             (doc (tab_page Example.drafted)) 3;
               rec_css := getComputedStyle (Renderer := Example.renderer)
                            (doc (tab_page Example.drafted)) 3;
               rec_modificationRequest :=
                 Some (Js.trim (get_value 10 (tab_page Example.drafted))) |}
  /\ V1.state_of Example.drafted_engine
       (V1.on_submit_button (rd := Example.renderer) Example.drafted_engine
          (tab_page Example.drafted)).2 = V1.Locked 3.
Proof.
  assert (Hst : V1.state_of Example.drafted_engine (tab_page Example.drafted)
                = V1.DialogOpen 3) by (vm_compute; reflexivity).
  split; [exact Hst|].
  apply (submit_commits_and_stays_locked (rd := Example.renderer)
           Example.drafted_engine (tab_page Example.drafted) 3 10 Hst).
  - vm_compute. reflexivity.
  - vm_compute. discriminate.
Defined.

(** The state after the submit of the example is not [Idle]: the span is
    still locked and selected. *)
Lemma submit_returns_to_idle_counterexample :
  V1.state_of Example.drafted_engine (tab_page Example.drafted) = V1.DialogOpen 3
  /\ Js.trim (get_value 10 (tab_page Example.drafted)) = "make this red"
  /\ is_Some (window_selectedElement (tab_page Example.committed))
  /\ ~ (V1.state_of Example.committed_engine (tab_page Example.committed) = V1.Idle
        /\ V1.isSelectionLocked Example.committed_engine = false
        /\ V1.selectedElement Example.committed_engine = None).
Proof.
  split; [vm_compute; reflexivity|]. split; [vm_compute; reflexivity|].
  split; [vm_compute; eauto|].
  intros (H & _). vm_compute in H. discriminate.
Qed.

Lemma blank_submit_witness :
  V1.on_submit_button (rd := Example.renderer) Example.opened_engine (tab_page Example.opened)
  = (Example.opened_engine, tab_page Example.opened)
  /\ (window_selectedElement
        (V2.on_send Example.send_listener (tab_page Example.selected))
      = window_selectedElement (tab_page Example.selected)
      /\ window_selectedElementMessage
           (V2.on_send Example.send_listener (tab_page Example.selected))
         = window_selectedElementMessage (tab_page Example.selected)
      /\ Dom.isChildOfRoot 22
           (doc (V2.on_send Example.send_listener (tab_page Example.selected))) = false).
Proof.
  destruct (blank_submit (rd := Example.renderer)) as [Hv1 Hv2]. split.
  - apply Hv1. intros ta Hta. vm_compute in Hta. injection Hta as <-.
    vm_compute. reflexivity.
  - apply (Hv2 Example.send_listener (tab_page Example.selected) 25);
      vm_compute; reflexivity.
Defined.

(** In the floating-icon engine the dialog is open with an empty text area;
    after the click on its send button it is no longer in the document. *)
Lemma blank_submit_keeps_dialog_counterexample :
  Dom.getElementById "mcp-dialog-box" (doc (tab_page Example.selected)) = Some 22
  /\ get_value 25 (tab_page Example.selected) = ""
  /\ ~ (window_selectedElement (tab_page Example.sent_blank)
        = window_selectedElement (tab_page Example.selected)
        /\ Dom.getElementById "mcp-dialog-box" (doc (tab_page Example.sent_blank))
           = Some 22).
Proof.
  split; [vm_compute; reflexivity|]. split; [vm_compute; reflexivity|].
  intros [_ H]. vm_compute in H. discriminate.
Qed.

Lemma slot_writers_witness :
  (exists target r, Click 13 = Click target
     /\ V1.submit_click Example.drafted_engine (tab_page Example.drafted) target
     /\ window_selectedElement (tab_page Example.committed) = Some r
     /\ V1.submitted Example.drafted_engine r)
  /\ window_selectedElement
       (V2.on_capture_click (rd := Example.renderer) 3
          (default (V2.inject Example.page).1 (head (closures Example.selecting)))
          (tab_page Example.selecting)).1.2
     = Some {| rec_element := None;
               rec_selector := V2.getUniqueSelector (doc (tab_page Example.selecting)) 3;
               rec_html := outerHTML (Renderer := Example.renderer)
                             (doc (tab_page Example.selecting)) 3;
               rec_css := getComputedStyle (Renderer := Example.renderer)
                            (doc (tab_page Example.selecting)) 3;
               rec_modificationRequest := None |}.
Proof.
  destruct (slot_writers (rd := Example.renderer)) as (Hv1 & _ & Hv2 & _). split.
  - apply (Hv1 (Click 13) Example.drafted_engine (tab_page Example.drafted)
             Example.committed_engine (tab_page Example.committed)).
    + vm_compute. reflexivity.
    + intros H. vm_compute in H. discriminate.
  - apply Hv2; vm_compute; reflexivity.
Defined.

(** In the floating-icon engine the click that selects the second span
    writes the slot, while no dialog exists yet. *)
Lemma slot_written_only_by_submit_counterexample :
  window_selectedElement (tab_page Example.selecting) = None
  /\ Dom.getElementById "mcp-dialog-box" (doc (tab_page Example.selecting)) = None
  /\ ~ (window_selectedElement
          (tab_page (V2.dispatch (rd := Example.renderer) (Click 3) Example.selecting))
        = window_selectedElement (tab_page Example.selecting)).
Proof.
  split; [vm_compute; reflexivity|]. split; [vm_compute; reflexivity|].
  intros H. vm_compute in H. discriminate.
Qed.

(** ** The document tree *)

Section DomFacts.

Import Dom.

(** Induction on a tree, with the property at hand for every child. *)
Lemma Element_induction (P : Element -> Prop) :
  (forall k t i c ch, Forall P ch -> P (Elem k t i c ch)) ->
  forall e, P e.
Proof.
  intros H. fix IH 1. intros [k t i c ch]. apply H.
  induction ch as [|x ch IHch]; constructor; [apply IH|apply IHch].
Qed.

Lemma elements_self e : e ∈ elements e.
Proof. destruct e. simpl. apply list_elem_of_here. Qed.

Lemma elements_unfold e : elements e = e :: flat_map elements (children e).
Proof. by destruct e. Qed.

Lemma elem_of_flat_map {A B} (f : A -> list B) l y :
  y ∈ flat_map f l <-> exists x, x ∈ l /\ y ∈ f x.
Proof.
  split.
  - intros H. apply list_elem_of_In, in_flat_map in H as (x & Hx & Hy).
    exists x. split; by apply list_elem_of_In.
  - intros (x & Hx & Hy). apply list_elem_of_In, in_flat_map.
    exists x. split; by apply list_elem_of_In.
Qed.

(** The children of an element of the tree are elements of the tree. *)
Lemma elements_children d parent c :
  parent ∈ elements d -> c ∈ children parent -> c ∈ elements d.
Proof.
  revert parent c. induction d as [k t i cl ch IH] using Element_induction.
  intros parent c Hp Hc. rewrite elements_unfold in Hp |- *. simpl in *.
  apply elem_of_cons in Hp as [->|Hp].
  - simpl in Hc. apply list_elem_of_further, elem_of_flat_map.
    exists c. split; [done|apply elements_self].
  - apply list_elem_of_further. apply elem_of_flat_map in Hp as (x & Hx & Hp).
    apply elem_of_flat_map. exists x. split; [done|].
    rewrite Forall_forall in IH. by eapply IH.
Qed.

(** With distinct keys, a key names one element. *)
Lemma key_inj d a b :
  NoDup (keys d) -> a ∈ elements d -> b ∈ elements d -> key a = key b -> a = b.
Proof.
  unfold keys. generalize (elements d). intros l Hnd.
  induction l as [|x l IH]; intros Ha Hb Hk; [by apply not_elem_of_nil in Ha|].
  rewrite fmap_cons in Hnd. apply NoDup_cons in Hnd as [Hx Hnd].
  apply elem_of_cons in Ha as [->|Ha]; apply elem_of_cons in Hb as [->|Hb]; auto.
  - exfalso. apply Hx. rewrite Hk. by apply list_elem_of_fmap_2.
  - exfalso. apply Hx. rewrite <- Hk. by apply list_elem_of_fmap_2.
Qed.

Lemma find_elem_of {A} (f : A -> bool) l x :
  find f l = Some x -> x ∈ l /\ f x = true.
Proof. intros H. apply find_some in H as [? ?]. split; [by apply list_elem_of_In|done]. Qed.

Lemma lookup_elem_of k d el : lookup k d = Some el -> el ∈ elements d /\ key el = k.
Proof.
  unfold lookup. intros [Hin Hk]%find_elem_of. split; [done|]. by apply Nat.eqb_eq.
Qed.

(** With distinct keys, an element of the tree is what its key looks up. *)
Lemma lookup_elements d el :
  NoDup (keys d) -> el ∈ elements d -> lookup (key el) d = Some el.
Proof.
  intros Hnd Hel. unfold lookup.
  destruct (find (fun e => (key e =? key el)%nat) (elements d)) as [x|] eqn:Hf.
  - apply find_elem_of in Hf as [Hx Hk]. apply Nat.eqb_eq in Hk.
    f_equal. by eapply key_inj.
  - exfalso. apply list_elem_of_In in Hel.
    pose proof (find_none _ _ Hf el Hel) as Hn. simpl in Hn.
    by rewrite Nat.eqb_refl in Hn.
Qed.

(** The parent found for a key has the element of that key among its
    children. *)
Lemma parentElement_child d k parent el :
  NoDup (keys d) -> lookup k d = Some el -> parentElement k d = Some parent ->
  parent ∈ elements d /\ el ∈ children parent.
Proof.
  intros Hnd Hl Hp. unfold parentElement in Hp.
  apply find_elem_of in Hp as [Hin Hex]. split; [done|].
  apply existsb_exists in Hex as (c & Hc & Hk). apply Nat.eqb_eq in Hk.
  apply list_elem_of_In in Hc. apply lookup_elem_of in Hl as [Hel Hkel].
  assert (c = el) as ->; [|done].
  eapply key_inj; eauto using elements_children. congruence.
Qed.

Lemma indexOf_from_elem_of l x i :
  x ∈ l ->
  exists n : nat, Js.indexOf_from i l x = (i + Z.of_nat n)%Z /\ l !! n = Some x.
Proof.
  revert i. induction l as [|y l IH]; intros i Hx; [by apply not_elem_of_nil in Hx|].
  simpl. destruct (y =? x)%nat eqn:Hy.
  - apply Nat.eqb_eq in Hy as ->. exists 0. split; [lia|done].
  - apply elem_of_cons in Hx as [->|Hx]; [by rewrite Nat.eqb_refl in Hy|].
    destruct (IH (i + 1)%Z Hx) as (n & Hn & Hl). exists (S n). split; [lia|done].
Qed.

(** [indexOf] finds an element that is there. *)
Lemma indexOf_elem_of l x :
  x ∈ l -> exists n : nat, Js.indexOf l x = Z.of_nat n /\ l !! n = Some x.
Proof.
  intros Hx. destruct (indexOf_from_elem_of l x 0 Hx) as (n & Hn & Hl).
  exists n. split; [unfold Js.indexOf; lia|done].
Qed.

(** Among children of one parent, the position [indexOf] reports for the
    key of a child is the position of that child. *)
Lemma indexOf_siblings d parent sibs el :
  NoDup (keys d) -> parent ∈ elements d ->
  sibs ⊆ children parent -> el ∈ sibs ->
  exists n : nat, Js.indexOf (key <$> sibs) (key el) = Z.of_nat n
                  /\ sibs !! n = Some el.
Proof.
  intros Hnd Hp Hsub Hel.
  destruct (indexOf_elem_of (key <$> sibs) (key el)) as (n & Hn & Hl).
  { by apply list_elem_of_fmap_2. }
  exists n. split; [done|].
  apply list_lookup_fmap_Some in Hl as (c & Hc & Hk).
  assert (c = el) as <-; [|done].
  assert (c ∈ sibs) by (by eapply list_elem_of_lookup_2).
  eapply key_inj; eauto using elements_children.
Qed.

End DomFacts.

(** ** Selectors *)

Section SelectorClaims.

Import Dom.

(** C6, as the code has it.  For an element with no id (and, in the
    toggle-button engine, no class) in a document with distinct node keys:
    [getSelector] looks at the element's own parent only and yields the
    lower-cased tag, followed by [:nth-child(k)] when that parent has more
    than one child of the tag; [getUniqueSelector] puts the selector of the
    parent and [" > "] in front of the same, level after level.  In both, [k]
    is the position of the element among the children of its tag, counted
    from 1. *)
Theorem selector_synthesis :
  (forall d k el,
     NoDup (keys d) -> lookup k d = Some el ->
     elemId el = "" -> classList el = [] ->
     match parentElement k d with
     | None => V1.getSelector d k = Js.toLowerCase (tagName el)
     | Some parent =>
         let sibs := filter (fun c => tagName c = tagName el) (children parent) in
         el ∈ sibs
         /\ (length sibs = 1 -> V1.getSelector d k = Js.toLowerCase (tagName el))
         /\ (1 < length sibs ->
             exists n, sibs !! n = Some el
               /\ V1.getSelector d k
                  = Js.toLowerCase (tagName el)
                    +:+ ":nth-child(" +:+ pretty (Z.of_nat (S n)) +:+ ")")
     end)
  /\ (forall d k pk up el parent,
        NoDup (keys d) -> lookup k d = Some el -> lookup pk d = Some parent ->
        el ∈ children parent ->
        elemId el = "" -> tagName el <> "BODY" ->
        let sibs := filter (fun c => tagName c = tagName el) (children parent) in
        (length sibs = 1 ->
         V2.uniqueSelector d (k :: pk :: up)
         = V2.uniqueSelector d (pk :: up) +:+ " > " +:+ Js.toLowerCase (tagName el))
        /\ (length sibs <> 1 ->
            exists n, sibs !! n = Some el
              /\ V2.uniqueSelector d (k :: pk :: up)
                 = V2.uniqueSelector d (pk :: up) +:+ " > " +:+ Js.toLowerCase (tagName el)
                   +:+ ":nth-child(" +:+ pretty (Z.of_nat (S n)) +:+ ")")).
Proof.
  split.
  - intros d k el Hnd Hl Hid Hcl. unfold V1.getSelector. rewrite Hl, Hid, Hcl. simpl.
    destruct (parentElement k d) as [parent|] eqn:Hp; [|done].
    destruct (parentElement_child d k parent el Hnd Hl Hp) as [Hpin Hch].
    set (sibs := filter (fun c => tagName c = tagName el) (children parent)).
    assert (el ∈ sibs) as Hel by (by apply list_elem_of_filter).
    split; [done|]. split.
    + intros Hlen. rewrite Hlen. done.
    + intros Hlen. destruct (1 <? length sibs)%nat eqn:Hlt;
        [|apply Nat.ltb_ge in Hlt; lia].
      destruct (indexOf_siblings d parent sibs el Hnd Hpin) as (n & Hn & Hsn);
        [intros x Hx; by apply list_elem_of_filter in Hx as [_ ?]|done|].
      apply lookup_elem_of in Hl as [_ <-]. exists n. split; [done|].
      rewrite Hn. by replace (Z.of_nat n + 1)%Z with (Z.of_nat (S n)) by lia.
  - intros d k pk up el parent Hnd Hl Hpl Hch Hid Hbody sibs.
    assert (parent ∈ elements d) as Hpin by (by apply lookup_elem_of in Hpl as [? _]).
    assert (el ∈ sibs) as Hel by (by apply list_elem_of_filter).
    assert (String.eqb (tagName el) "BODY" = false) as Hb.
    { destruct (String.eqb (tagName el) "BODY") eqn:He; [|done].
      by apply String.eqb_eq in He. }
    cbn [V2.uniqueSelector]. rewrite Hl, Hid, Hb. cbn [Js.truthy String.eqb negb head mbind
      option_bind]. rewrite Hpl. fold sibs. split.
    + intros Hlen. by rewrite Hlen.
    + intros Hlen. destruct (length sibs =? 1)%nat eqn:Heq;
        [apply Nat.eqb_eq in Heq; lia|].
      destruct (indexOf_siblings d parent sibs el Hnd Hpin) as (n & Hn & Hsn);
        [intros x Hx; by apply list_elem_of_filter in Hx as [_ ?]|done|].
      apply lookup_elem_of in Hl as [_ <-]. exists n. split; [done|].
      rewrite Hn. by replace (Z.of_nat n + 1)%Z with (Z.of_nat (S n)) by lia.
Qed.

End SelectorClaims.

Lemma selector_synthesis_witness :
  match Dom.parentElement 3 Example.document with
  | None => V1.getSelector Example.document 3 = "span"
  | Some parent =>
      let sibs := filter (fun c => Dom.tagName c = "SPAN") (Dom.children parent) in
      Example.second_span ∈ sibs
      /\ (length sibs = 1 -> V1.getSelector Example.document 3 = "span")
      /\ (1 < length sibs ->
          exists n, sibs !! n = Some Example.second_span
            /\ V1.getSelector Example.document 3
               = "span" +:+ ":nth-child(" +:+ pretty (Z.of_nat (S n)) +:+ ")")
  end
  /\ (let sibs := filter (fun c => Dom.tagName c = "SPAN") (Dom.children Example.document) in
      (length sibs = 1 ->
       V2.uniqueSelector Example.document [3; 0]
       = V2.uniqueSelector Example.document [0] +:+ " > " +:+ "span")
      /\ (length sibs <> 1 ->
          exists n, sibs !! n = Some Example.second_span
            /\ V2.uniqueSelector Example.document [3; 0]
               = V2.uniqueSelector Example.document [0] +:+ " > " +:+ "span"
                 +:+ ":nth-child(" +:+ pretty (Z.of_nat (S n)) +:+ ")")).
Proof.
  assert (Hnd : NoDup (Dom.keys Example.document)).
  { apply (bool_decide_unpack _). vm_compute. reflexivity. }
  destruct selector_synthesis as [Hv1 Hv2]. split.
  - apply (Hv1 Example.document 3 Example.second_span Hnd); reflexivity.
  - apply (Hv2 Example.document 3 0 [] Example.second_span Example.document Hnd).
    + reflexivity.
    + reflexivity.
    + vm_compute. do 2 apply list_elem_of_further. apply list_elem_of_here.
    + reflexivity.
    + discriminate.
Defined.

(** The second span of the example is the third child of the body.  Both
    synthesizers index it as the second of the spans, and the selectors they
    produce resolve to the first span, the second child of the body; the
    toggle-button selector of the [b] inside it names no ancestor. *)
Lemma selector_resolves_counterexample :
  Dom.lookup 3 Example.document = Some Example.second_span
  /\ V1.getSelector Example.document 3 = "span:nth-child(2)"
  /\ V2.getUniqueSelector Example.document 3 = "body > span:nth-child(2)"
  /\ V1.getSelector Example.document 4 = "b"
  /\ Css.querySelector Example.document (V2.getUniqueSelector Example.document 3)
     = Some (Some 2)
  /\ ~ (Css.querySelector Example.document (V1.getSelector Example.document 3)
        = Some (Some 3)).
Proof.
  repeat (split; [vm_compute; reflexivity|]).
  intros H. vm_compute in H. discriminate.
Qed.

(** ** Injection *)

(** C2, at the input where the code departs from it.  After two runs of the
    injection script on the example page the document holds one node for
    each of the identifiers the script removes first (none yet for the
    highlight, which is created on the first hover), but two device
    selectors, with two of each of their controls: [mcp-device-selector] is
    not in the list of identifiers removed.  Each run has left a closure with
    its listeners, and the second run has put its listener for the apply
    button on the button of the first device selector (key 30, the first in
    the document), not on its own.  A third run leaves three. *)
Theorem reinjection_duplicates_device_selector :
  let d := doc (tab_page Example.twice) in
  map (fun i => Dom.count_id i d) V1.existingElements = [1; 1; 1; 0; 1]
  /\ map (fun i => Dom.count_id i d)
       [ "mcp-device-selector"; "mcp-device-dropdown"; "mcp-width-input";
         "mcp-height-input"; "mcp-apply-size" ] = [2; 2; 2; 2; 2]
  /\ map (fun e => V1.applyNode (V1.ui e)) (closures Example.twice)
     = [Some 30; Some 30]
  /\ Forall V1.idle (closures Example.twice)
  /\ Dom.count_id "mcp-device-selector" (doc (tab_page Example.thrice)) = 3.
Proof.
  cbv zeta. split; [vm_compute; reflexivity|]. split; [vm_compute; reflexivity|].
  split; [vm_compute; reflexivity|]. split; [|vm_compute; reflexivity].
  assert (closures Example.twice
          = [Example.engine; (V1.inject (tab_page Example.injected)).1]) as ->.
  { vm_compute. reflexivity. }
  repeat constructor.
Qed.

(** ** Stacking *)

Section Stacking.
Context {rd : Renderer}.

Import V1.

(** C8, as the code has it.  On any page, once the script has run and
    the highlight box has been created by the first hover, the overlay is at
    level 9999, the info panel at 10000, the dialog at 10002, the toggle
    button and the device selector at 10003, and the highlight box at
    2147483647: the panel is below the dialog and the dialog below the toggle
    button, but the highlight is above all of them, not below. *)
Theorem stacking_order p target :
  let e := (inject p).1 in
  let q := (inject p).2 in
  let e' := (updateHighlightBox target false e q).1 in
  let q' := (updateHighlightBox target false e q).2 in
  exists hb, highlightBox e' = Some hb
    /\ zIndex (overlay (ui e)) q' = Some 9999%Z
    /\ zIndex (infoPanel (ui e)) q' = Some 10000%Z
    /\ zIndex (dialogBox (ui e)) q' = Some 10002%Z
    /\ zIndex (toggleButton (ui e)) q' = Some 10003%Z
    /\ zIndex (deviceSelector (ui e)) q' = Some 10003%Z
    /\ zIndex hb q' = Some 2147483647%Z.
Proof.
  cbv zeta. unfold inject.
  destruct (addNode _ overlay_style None (removeExisting p)) as [ov p1] eqn:H1.
  destruct (addNode _ infoPanel_style _ p1) as [ip p2] eqn:H2.
  destruct (addNode _ dialogBox_style None p2) as [dg p3] eqn:H3.
  destruct (addNode _ toggleButton_style _ p3) as [tg p4] eqn:H4.
  destruct (addNode _ deviceSelector_style None p4) as [ds p5] eqn:H5.
  node_facts H1 Hk1 Hn1 Hs1 Ho1 Hw1. node_facts H2 Hk2 Hn2 Hs2 Ho2 Hw2.
  node_facts H3 Hk3 Hn3 Hs3 Ho3 Hw3. node_facts H4 Hk4 Hn4 Hs4 Ho4 Hw4.
  node_facts H5 Hk5 Hn5 Hs5 Ho5 Hw5.
  cbn [fst snd ui overlay infoPanel dialogBox toggleButton deviceSelector].
  unfold updateHighlightBox. cbn [highlightBox]. unfold createHighlightBox.
  destruct (addNode _ highlight_style None p5) as [hb p6] eqn:H6.
  node_facts H6 Hk6 Hn6 Hs6 Ho6 Hw6.
  cbn [fst snd highlightBox set_highlightBox]. exists hb. split; [done|].
  subst. unfold zIndex.
  repeat split;
    rewrite ?get_style_set_styles_own; cbn [assigned default];
    rewrite ?get_style_set_styles_ne by lia;
    rewrite ?get_style_set_styles_own; cbn [assigned default].
  - rewrite Hs6, Hs5, Hs4, Hs3, Hs2 by lia. by rewrite Ho1.
  - rewrite Hs6, Hs5, Hs4, Hs3 by lia. by rewrite Ho2.
  - rewrite Hs6, Hs5, Hs4 by lia. by rewrite Ho3.
  - rewrite Hs6, Hs5 by lia. by rewrite Ho4.
  - rewrite Hs6 by lia. by rewrite Ho5.
  - by rewrite Ho6.
Qed.

End Stacking.

(** On the example page the highlight box (key 31) is at level 2147483647
    and the info panel (key 7) at 10000: the highlight is not below it. *)
Lemma highlight_below_panel_counterexample :
  V1.highlightBox Example.locked_engine = Some 31
  /\ V1.infoPanel (V1.ui Example.locked_engine) = 7
  /\ ~ (exists zh zi, V1.zIndex 31 (tab_page Example.locked) = Some zh
                      /\ V1.zIndex 7 (tab_page Example.locked) = Some zi
                      /\ (zh < zi)%Z).
Proof.
  split; [vm_compute; reflexivity|]. split; [vm_compute; reflexivity|].
  intros (zh & zi & Hh & Hi & Hlt). vm_compute in Hh, Hi.
  injection Hh as <-. injection Hi as <-. lia.
Qed.
